(** * MSCOCO down-sampled dataset: model of [data_sample_mscoco.py]

    The module joins a directory of images with COCO instance and caption
    annotations ([MSCOCODataset]) and prunes the image directories to a
    bounded number of files ([data_subsample], [load_data]).

    Python objects that are mutated in place (the sample dictionaries) live
    in an explicit store, so that copying and aliasing are visible.  The
    libraries the module calls (os.path, int parsing, numpy's generator,
    pycocotools, zip extraction) are collected in one record of externals. *)

From Stdlib Require Import ZArith String Ascii List Lia.
From stdpp Require Import gmap strings list fin_maps.

Set Warnings "-register-all".
Open Scope Z_scope.
Open Scope string_scope.

(** ** Python values, exceptions and results *)

(** The values stored in a sample dictionary.  A float is carried as the
    decimal literal of the annotation file (mantissa, exponent): the program
    never computes with it.  [VArray] is a two-dimensional binary array, the
    result of [annToMask]. *)
Inductive value : Type :=
| VInt (z : Z)
| VFloat (mantissa exponent : Z)
| VStr (s : string)
| VList (items : list value)
| VTuple (items : list value)
| VArray (rows : list (list bool)).

Inductive error : Type :=
| KeyError (key : value)
| ValueError (msg : string)
| TypeError (msg : string)
| AssertionError (msg : string)
| LoadError (file : string).

Inductive Result (A : Type) : Type :=
| Ok (a : A)
| Err (e : error).
Arguments Ok {A} a.
Arguments Err {A} e.

(** An index given to [__getitem__]: [Union[int, str]]. *)
Inductive index : Type :=
| IdxInt (i : Z)
| IdxStr (k : string).

Definition loc : Type := nat.

(** What [os.walk] yields for a directory: one entry per directory visited,
    top directory first, each with the names of its files in listing order. *)
Definition walk : Type := list (string * list string).

(** One entry of a COCO annotation file, with the fields the program reads. *)
Record annotation : Type := {
  ann_id : Z;
  ann_image_id : Z;
  ann_iscrowd : bool;
  ann_bbox : list value;
  ann_category_id : Z;
  ann_caption : string;
  ann_segmentation : list (list bool)
}.

(** The interface of [pycocotools.coco.COCO] that the program uses. *)
Record COCO : Type := {
  getAnnIds : Z -> option bool -> list Z;
  loadAnns : list Z -> list annotation;
  annToMask : annotation -> list (list bool)
}.

(** The state the program runs in: the object store, the number of draws
    taken from the random generator, the annotation files opened so far and
    the directories on disk (absent key: the directory does not exist). *)
Record world : Type := {
  heap : gmap loc (gmap string value);
  rng : nat;
  opened : list string;
  fs : gmap string walk
}.

Definition set_heap (h : gmap loc (gmap string value)) (w : world) : world :=
  {| heap := h; rng := rng w; opened := opened w; fs := fs w |}.
Definition set_rng (n : nat) (w : world) : world :=
  {| heap := heap w; rng := n; opened := opened w; fs := fs w |}.
Definition set_opened (o : list string) (w : world) : world :=
  {| heap := heap w; rng := rng w; opened := o; fs := fs w |}.
Definition set_fs (f : gmap string walk) (w : world) : world :=
  {| heap := heap w; rng := rng w; opened := opened w; fs := f |}.

(** Library code outside the repository.  [COCO_load] parses an annotation
    file and [unpack] downloads (when the archive is not on disk) and
    extracts an archive, giving the listing of the directory it creates;
    both give [None] when the library raises. *)
Record Externals : Type := {
  basename : string -> string;
  splitext : string -> string * string;
  py_int : string -> option Z;
  random_word : nat -> Z;
  COCO_load : string -> option COCO;
  unpack : string -> option walk;
  home : string;
  abspath : string -> string
}.

(** ** The state-and-exception monad *)

Definition M (A : Type) : Type := world -> Result A * world.

Definition ret {A} (a : A) : M A := fun w => (Ok a, w).
Definition raise {A} (e : error) : M A := fun w => (Err e, w).
Definition bind {A B} (m : M A) (f : A -> M B) : M B :=
  fun w => match m w with
           | (Ok a, w') => f a w'
           | (Err e, w') => (Err e, w')
           end.

Notation "'do' x <- c1 ; c2" := (bind c1 (fun x => c2))
  (at level 10, x name, c1 at level 100, c2 at level 200).
Notation "c1 ;; c2" := (bind c1 (fun _ => c2))
  (at level 100, c2 at level 200, right associativity).

(** [for x in xs: body(x)] *)
Fixpoint for_each {A} (xs : list A) (body : A -> M unit) : M unit :=
  match xs with
  | [] => ret tt
  | x :: xs' => body x ;; for_each xs' body
  end.

(** ** Operations on stored dictionaries *)

(** [obj[k]] *)
Definition getfield (l : loc) (k : string) : M value :=
  fun w => match heap w !! l with
           | Some d => match d !! k with
                       | Some v => (Ok v, w)
                       | None => (Err (KeyError (VStr k)), w)
                       end
           | None => (Err (TypeError "dangling reference"), w)
           end.

(** [obj[k] = v] *)
Definition setfield (l : loc) (k : string) (v : value) : M unit :=
  fun w => match heap w !! l with
           | Some d => (Ok tt, set_heap (<[l := <[k := v]> d]> (heap w)) w)
           | None => (Err (TypeError "dangling reference"), w)
           end.

(** [obj[k].append(v)] *)
Definition list_append (l : loc) (k : string) (v : value) : M unit :=
  do old <- getfield l k;
  match old with
  | VList items => setfield l k (VList (items ++ [v]))
  | _ => raise (TypeError "append")
  end.

(** [copy.deepcopy(obj)]: a new object with the same contents. *)
Definition deepcopy (l : loc) : M loc :=
  fun w => match heap w !! l with
           | Some d => let l' := fresh (dom (heap w)) in
                       (Ok l', set_heap (<[l' := d]> (heap w)) w)
           | None => (Err (TypeError "dangling reference"), w)
           end.

(** Python truth value, as used by [not response[...]]. *)
Definition truthy (v : value) : bool :=
  match v with
  | VInt z => negb (Z.eqb z 0)
  | VFloat m _ => negb (Z.eqb m 0)
  | VStr s => match s with EmptyString => false | _ => true end
  | VList items | VTuple items => match items with [] => false | _ => true end
  | VArray _ => true
  end.

(** ** The base dataset *)

(** Modelled from the spec: [fastestimator.dataset.dir_dataset.DirDataset],
    which is imported by the module and not part of it.  It holds one stored
    record per image file, addressed by position ([data]) or by an opaque
    string key ([named]); plain retrieval hands out the stored record itself. *)
Record DirDataset : Type := {
  data : list loc;
  named : gmap string loc
}.

Definition DirDataset_len (b : DirDataset) : Z := Z.of_nat (length (data b)).

Definition DirDataset_getitem (b : DirDataset) (i : index) : M loc :=
  match i with
  | IdxInt n =>
      if Z.ltb n 0 then raise (KeyError (VInt n))
      else match data b !! Z.to_nat n with
           | Some l => ret l
           | None => raise (KeyError (VInt n))
           end
  | IdxStr k =>
      match named b !! k with
      | Some l => ret l
      | None => raise (KeyError (VStr k))
      end
  end.

(** [os.path.join(a, b)] for a relative [b]. *)
Definition path_join (a b : string) : string := a ++ "/" ++ b.

(** Files listed directly in a directory ([recursive_search=False]). *)
Definition top_files (w : walk) : list string :=
  match w with
  | [] => []
  | (dirpath, filenames) :: _ => map (path_join dirpath) filenames
  end.

(** Every file below a directory, in traversal order. *)
Definition all_files (w : walk) : list string :=
  flat_map (fun entry => map (path_join (fst entry)) (snd entry)) w.

(** [store_records key paths]: allocate one record [{key: path}] per path. *)
Fixpoint store_records (key : string) (paths : list string) : M (list loc) :=
  match paths with
  | [] => ret []
  | p :: rest =>
      do l <- (fun w => let l := fresh (dom (heap w)) in
                        (Ok l, set_heap (<[l := {[ key := VStr p ]}]> (heap w)) w));
      do ls <- store_records key rest;
      ret (l :: ls)
  end.

(** Modelled from the spec: the constructor of [DirDataset] lists the image
    directory without recursion, one record per file.  The library rejects a
    path that is not a directory; the model keeps that failure, so that no
    result about construction relies on its absence. *)
Definition DirDataset_init (root_dir data_key : string) : M DirDataset :=
  do listing <- (fun w => match fs w !! root_dir with
                          | Some wk => (Ok wk, w)
                          | None => (Err (AssertionError "Provided path is not a directory"), w)
                          end);
  do ls <- store_records data_key (top_files listing);
  ret {| data := ls; named := ∅ |}.

(** ** MSCOCODataset *)

Record MSCOCODataset : Type := {
  base : DirDataset;
  include_bboxes : bool;
  include_masks : bool;
  instances : COCO;
  captions : option COCO
}.

Definition nonempty {A} (l : list A) : bool :=
  match l with [] => false | _ => true end.

Section Dataset.
Context (ext : Externals).

(** [np.random.randint(high)]: the next word of the generator reduced to
    [0, high); numpy rejects [high <= 0]. *)
Definition randint (high : Z) : M Z :=
  fun w => if Z.leb high 0 then (Err (ValueError "high <= 0"), w)
           else (Ok (random_word ext (rng w) mod high), set_rng (S (rng w)) w).

(** [COCO(file)]: records the file as opened, then parses it. *)
Definition COCO_open (file : string) : M COCO :=
  fun w => let w' := set_opened (opened w ++ [file]) w in
           match COCO_load ext file with
           | Some c => (Ok c, w')
           | None => (Err (LoadError file), w')
           end.

Definition __init__ (image_dir annotation_file caption_file : string)
    (include_bboxes include_masks include_captions : bool) : M MSCOCODataset :=
  do b <- DirDataset_init image_dir "image";
  (if include_masks
   then (if include_bboxes then ret tt
         else raise (AssertionError "must include bboxes with mask data"))
   else ret tt) ;;
  do inst <- COCO_open annotation_file;
  do capt <- (if include_captions
              then (do c <- COCO_open caption_file; ret (Some c))
              else ret None);
  ret {| base := b; include_bboxes := include_bboxes;
         include_masks := include_masks; instances := inst; captions := capt |}.

Definition _populate_instance_data (self : MSCOCODataset) (data : loc)
    (image_id : Z) : M unit :=
  setfield data "bbox" (VList []) ;;
  (if include_masks self then setfield data "mask" (VList []) else ret tt) ;;
  let annotation_ids := getAnnIds (instances self) image_id (Some false) in
  if nonempty annotation_ids then
    let annotations := loadAnns (instances self) annotation_ids in
    for_each annotations (fun annotation =>
      list_append data "bbox"
        (VTuple (ann_bbox annotation ++ [VInt (ann_category_id annotation)])) ;;
      if include_masks self
      then list_append data "mask" (VArray (annToMask (instances self) annotation))
      else ret tt)
  else ret tt.

Definition _populate_caption_data (capts : COCO) (data : loc)
    (image_id : Z) : M unit :=
  setfield data "caption" (VList []) ;;
  let annotation_ids := getAnnIds capts image_id None in
  if nonempty annotation_ids then
    let annotations := loadAnns capts annotation_ids in
    for_each annotations (fun annotation =>
      list_append data "caption" (VStr (ann_caption annotation)))
  else ret tt.

(** [int(os.path.splitext(os.path.basename(image))[0])] *)
Definition parse_image_id (image : value) : M Z :=
  match image with
  | VStr path =>
      match py_int ext (fst (splitext ext (basename ext path))) with
      | Some z => ret z
      | None => raise (ValueError "invalid literal for int() with base 10")
      end
  | _ => raise (TypeError "expected str, bytes or os.PathLike object")
  end.

Definition _get_single_item (self : MSCOCODataset) (i : index) : M loc :=
  do response <- DirDataset_getitem (base self) i;
  match i with
  | IdxStr _ => ret response
  | IdxInt _ =>
      do response <- deepcopy response;
      do image <- getfield response "image";
      do image_id <- parse_image_id image;
      setfield response "image_id" (VInt image_id) ;;
      (if include_bboxes self
       then _populate_instance_data self response image_id else ret tt) ;;
      (match captions self with
       | Some capts => _populate_caption_data capts response image_id
       | None => ret tt
       end) ;;
      ret response
  end.

(** [flag and not response[key]]: the field is read only when the flag is
    set. *)
Definition missing (flag : bool) (response : loc) (key : string) : M bool :=
  if flag then (do v <- getfield response key; ret (negb (truthy v)))
  else ret false.

(** One pass through the body of the [while] loop of [__getitem__]: the
    response fetched, the new value of [has_data] and the new [index]. *)
Definition loop_body (self : MSCOCODataset) (i : index) : M (loc * bool * index) :=
  do response <- _get_single_item self i;
  do no_box <- missing (include_bboxes self) response "bbox";
  do no_mask <- missing (include_masks self) response "mask";
  do no_caption <- missing (match captions self with Some _ => true | None => false end)
                     response "caption";
  let has_box := negb no_box in
  let has_mask := negb no_mask in
  let has_caption := negb no_caption in
  let has_data := has_box && has_mask && has_caption in
  do next <- randint (DirDataset_len (base self));
  ret (response, has_data, IdxInt next).

(** [__getitem__]: the loop runs for at most [fuel] passes; [None] means that
    [has_data] was still false after all of them. *)
Fixpoint __getitem__ (fuel : nat) (self : MSCOCODataset) (i : index) (w : world)
    : option (Result loc * world) :=
  match fuel with
  | O => None
  | S fuel' =>
      match loop_body self i w with
      | (Err e, w') => Some (Err e, w')
      | (Ok (response, has_data, next), w') =>
          if has_data then Some (Ok response, w')
          else __getitem__ fuel' self next w'
      end
  end.

(** ** Subsampling and bootstrap *)

(** The inner [for f in filenames] of [data_subsample]: the counter after the
    loop and the file names left in the directory.  [os.remove] of a listed
    file takes that entry out of the listing. *)
Fixpoint subsample_files (sample_num : Z) (filenames : list string)
    (img_count : Z) : Z * list string :=
  match filenames with
  | [] => (img_count, [])
  | f :: rest =>
      if Z.ltb img_count sample_num
      then let '(c, kept) := subsample_files sample_num rest (img_count + 1) in
           (c, f :: kept)
      else subsample_files sample_num rest img_count
  end.

(** The outer [for dirpath, _, filenames in os.walk(source_dir)]. *)
Fixpoint subsample_walk (sample_num : Z) (wk : walk) (img_count : Z)
    : Z * walk :=
  match wk with
  | [] => (img_count, [])
  | (dirpath, filenames) :: rest =>
      let '(c, kept) := subsample_files sample_num filenames img_count in
      let '(c', rest') := subsample_walk sample_num rest c in
      (c', (dirpath, kept) :: rest')
  end.

(** [os.walk] of a missing directory yields nothing. *)
Definition data_subsample (source_dir : string) (sample_num : Z) : M unit :=
  fun w => match fs w !! source_dir with
           | Some wk =>
               (Ok tt, set_fs (<[source_dir := snd (subsample_walk sample_num wk 0)]> (fs w)) w)
           | None => (Ok tt, w)
           end.

(** One round of the download loop of [load_data]: when [data_dir] does not
    exist the archive is fetched (unless already on disk) and extracted. *)
Definition fetch_missing (data_dir zip_name : string) : M unit :=
  fun w => match fs w !! data_dir with
           | Some _ => (Ok tt, w)
           | None => match unpack ext zip_name with
                     | Some wk => (Ok tt, set_fs (<[data_dir := wk]> (fs w)) w)
                     | None => (Err (LoadError zip_name), w)
                     end
           end.

(** [load_data].  A world keeps the listing of each directory under the
    path the program walks it by, so [os.makedirs(root_dir)], which creates
    no split directory, changes nothing that is read later and is left out.
    The download address of an archive is part of [unpack]. *)
Definition load_data (root_dir : option string) (sample_num : Z)
    (load_bboxes load_masks load_captions : bool)
    : M (MSCOCODataset * MSCOCODataset) :=
  let root_dir := match root_dir with
                  | None => path_join (path_join (home ext) "fastestimator_data") "MSCOCO2017"
                  | Some r => path_join (abspath ext r) "MSCOCO2017"
                  end in
  let train_data := path_join root_dir "train2017" in
  let eval_data := path_join root_dir "val2017" in
  let annotation_data := path_join root_dir "annotations" in
  data_subsample train_data sample_num ;;
  data_subsample eval_data sample_num ;;
  for_each [(train_data, "train2017.zip");
            (eval_data, "val2017.zip");
            (annotation_data, "annotations_trainval2017.zip")]
    (fun file => fetch_missing (fst file) (snd file)) ;;
  let train_annotation := path_join annotation_data "instances_train2017.json" in
  let eval_annotation := path_join annotation_data "instances_val2017.json" in
  let train_captions := path_join annotation_data "captions_train2017.json" in
  let eval_captions := path_join annotation_data "captions_val2017.json" in
  do train_ds <- __init__ train_data train_annotation train_captions
                   load_bboxes load_masks load_captions;
  do eval_ds <- __init__ eval_data eval_annotation eval_captions
                  load_bboxes load_masks load_captions;
  ret (train_ds, eval_ds).

End Dataset.

(** ** The record a sample holds, as a function of the base record *)

Definition instance_anns (c : COCO) (image_id : Z) : list annotation :=
  let ids := getAnnIds c image_id (Some false) in
  if nonempty ids then loadAnns c ids else [].

Definition caption_anns (c : COCO) (image_id : Z) : list annotation :=
  let ids := getAnnIds c image_id None in
  if nonempty ids then loadAnns c ids else [].

Definition bbox_tuple (a : annotation) : value :=
  VTuple (ann_bbox a ++ [VInt (ann_category_id a)]).

Definition mask_value (self : MSCOCODataset) (a : annotation) : value :=
  VArray (annToMask (instances self) a).

Definition caption_value (a : annotation) : value := VStr (ann_caption a).

Definition with_masks (self : MSCOCODataset) (anns : list annotation)
    (d : gmap string value) : gmap string value :=
  if include_masks self
  then <["mask" := VList (map (mask_value self) anns)]> d
  else d.

Definition with_instances (self : MSCOCODataset) (image_id : Z)
    (d : gmap string value) : gmap string value :=
  let anns := instance_anns (instances self) image_id in
  with_masks self anns (<["bbox" := VList (map bbox_tuple anns)]> d).

Definition with_captions (capts : COCO) (image_id : Z)
    (d : gmap string value) : gmap string value :=
  <["caption" := VList (map caption_value (caption_anns capts image_id))]> d.

Definition sample_record (self : MSCOCODataset) (image_id : Z)
    (d : gmap string value) : gmap string value :=
  let d1 := <["image_id" := VInt image_id]> d in
  let d2 := if include_bboxes self then with_instances self image_id d1 else d1 in
  match captions self with
  | Some capts => with_captions capts image_id d2
  | None => d2
  end.

(** A field that holds a list with at least one entry. *)
Definition nonempty_list (d : gmap string value) (k : string) : Prop :=
  exists items, d !! k = Some (VList items) /\ items <> [].

(** The completeness test of the spec, on a record. *)
Definition field_true (d : gmap string value) (k : string) : bool :=
  match d !! k with Some v => truthy v | None => false end.

Definition complete (self : MSCOCODataset) (d : gmap string value) : bool :=
  implb (include_bboxes self) (field_true d "bbox")
  && implb (include_masks self) (field_true d "mask")
  && implb (match captions self with Some _ => true | None => false end)
           (field_true d "caption").

(** The image id that the file name of a path stands for. *)
Definition stem_id (ext : Externals) (path : string) : option Z :=
  py_int ext (fst (splitext ext (basename ext path))).

(** The sample that position [i] yields from the store [h]: the base record
    must be stored, name its image and have an integer file-name stem. *)
Definition fetch (ext : Externals) (self : MSCOCODataset)
    (h : gmap loc (gmap string value)) (i : Z) : option (gmap string value) :=
  if Z.ltb i 0 then None
  else match data (base self) !! Z.to_nat i with
       | Some l =>
           match h !! l with
           | Some d =>
               match d !! "image" with
               | Some (VStr path) =>
                   match stem_id ext path with
                   | Some image_id => Some (sample_record self image_id d)
                   | None => None
                   end
               | _ => None
               end
           | None => None
           end
       | None => None
       end.

(** Every position of the dataset yields a sample. *)
Definition all_fetch (ext : Externals) (self : MSCOCODataset)
    (h : gmap loc (gmap string value)) : Prop :=
  forall i, 0 <= i < DirDataset_len (base self) -> is_Some (fetch ext self h i).

(** Modelled from the spec: the annotation index of pycocotools over the
    annotations of a file in source order.  [getAnnIds] selects by image id
    and crowd flag, [loadAnns] looks annotations up by id (the last entry
    with an id is the one indexed). *)
Definition coco_index (anns : list annotation) : COCO := {|
  getAnnIds := fun image_id crowd =>
    map ann_id
      (List.filter (fun a => Z.eqb (ann_image_id a) image_id
                        && match crowd with
                           | Some c => Bool.eqb (ann_iscrowd a) c
                           | None => true
                           end) anns);
  loadAnns := fun ids =>
    flat_map (fun id => match find (fun a => Z.eqb (ann_id a) id) (rev anns) with
                        | Some a => [a]
                        | None => []
                        end) ids;
  annToMask := ann_segmentation
|}.

(** The contract of the instance index that the spec relies on: the query
    gives the non-crowd annotations of the image, in source order. *)
Definition non_crowd_of (image_id : Z) (a : annotation) : bool :=
  Z.eqb (ann_image_id a) image_id && negb (ann_iscrowd a).

Definition index_of (c : COCO) (anns : list annotation) : Prop :=
  loadAnns c [] = []
  /\ forall image_id,
       loadAnns c (getAnnIds c image_id (Some false))
       = List.filter (non_crowd_of image_id) anns.

(** ** Worlds after an update *)

(** [upd l d w]: the world [w] with the object at [l] replaced by [d]. *)
Definition upd (l : loc) (d : gmap string value) (w : world) : world :=
  set_heap (<[l := d]> (heap w)) w.

(** The object that the next [deepcopy] creates. *)
Definition next_loc (w : world) : loc := fresh (dom (heap w)).

(** The invariant that [__init__] asserts: masks are only served together
    with bounding boxes. *)
Definition valid_config (self : MSCOCODataset) : Prop :=
  include_masks self = true -> include_bboxes self = true.

(** The world after one pass of the loop of [__getitem__] that fetched the
    record [r]: the record is stored in a new object and one random word has
    been used. *)
Definition after_pass (r : gmap string value) (w : world) : world :=
  set_rng (S (rng w)) (upd (next_loc w) r w).

(** The index drawn by the pass that starts in world [w]. *)
Definition drawn (ext : Externals) (self : MSCOCODataset) (w : world) : Z :=
  random_word ext (rng w) mod DirDataset_len (base self).

(** Every object of [w] is stored unchanged in [w']. *)
Definition heap_le (w w' : world) : Prop :=
  forall l d, heap w !! l = Some d -> heap w' !! l = Some d.

(** The error raised by the assertion of [__init__]. *)
Definition mask_without_bbox : error :=
  AssertionError "must include bboxes with mask data".

(** What [__init__] does once the base dataset [b] has been built in world
    [w1]: the outcome, the world, and the files opened on the way. *)
Definition init_after_base (ext : Externals) (b : DirDataset)
    (annotation_file caption_file : string) (bboxes masks capts : bool)
    (w1 : world) : Result MSCOCODataset * world :=
  if masks && negb bboxes then (Err mask_without_bbox, w1)
  else
    let w2 := set_opened (opened w1 ++ [annotation_file]) w1 in
    match COCO_load ext annotation_file with
    | None => (Err (LoadError annotation_file), w2)
    | Some inst =>
        if capts then
          let w3 := set_opened (opened w2 ++ [caption_file]) w2 in
          match COCO_load ext caption_file with
          | None => (Err (LoadError caption_file), w3)
          | Some c =>
              (Ok {| base := b; include_bboxes := bboxes; include_masks := masks;
                     instances := inst; captions := Some c |}, w3)
          end
        else
          (Ok {| base := b; include_bboxes := bboxes; include_masks := masks;
                 instances := inst; captions := None |}, w2)
    end.

(** The directory below which [load_data] keeps the dataset. *)
Definition load_root (ext : Externals) (root_dir : option string) : string :=
  match root_dir with
  | None => path_join (path_join (home ext) "fastestimator_data") "MSCOCO2017"
  | Some r => path_join (abspath ext r) "MSCOCO2017"
  end.

(** ** Reference implementations of the externals and a small dataset *)

(** [os.path.basename] on POSIX paths: what follows the last slash. *)
Fixpoint has_slash (s : string) : bool :=
  match s with
  | EmptyString => false
  | String c rest => Ascii.eqb c "/" || has_slash rest
  end.

Fixpoint posix_basename (p : string) : string :=
  match p with
  | EmptyString => EmptyString
  | String c rest =>
      if has_slash rest then posix_basename rest
      else if Ascii.eqb c "/" then rest else p
  end.

(** [str.rfind] of one character: position of its last occurrence, [-1]
    when there is none. *)
Fixpoint rindex (c : ascii) (cs : list ascii) (pos found : Z) : Z :=
  match cs with
  | [] => found
  | x :: rest => rindex c rest (pos + 1) (if Ascii.eqb x c then pos else found)
  end.

(** [os.path.splitext]: split at the last dot of the last component, unless
    that component has only dots before it. *)
Definition posix_splitext (p : string) : string * string :=
  let cs := list_ascii_of_string p in
  let sepIndex := rindex "/" cs 0 (-1) in
  let dotIndex := rindex "." cs 0 (-1) in
  if Z.ltb sepIndex dotIndex then
    let name := firstn (Z.to_nat (dotIndex - (sepIndex + 1)))
                       (skipn (Z.to_nat (sepIndex + 1)) cs) in
    if existsb (fun c => negb (Ascii.eqb c ".")) name
    then (string_of_list_ascii (firstn (Z.to_nat dotIndex) cs),
          string_of_list_ascii (skipn (Z.to_nat dotIndex) cs))
    else (p, EmptyString)
  else (p, EmptyString).

Definition is_space (c : ascii) : bool :=
  let n := Z.of_nat (nat_of_ascii c) in
  Z.eqb n 32 || (Z.leb 9 n && Z.leb n 13).

Definition digit_of (c : ascii) : option Z :=
  let n := Z.of_nat (nat_of_ascii c) in
  if Z.leb 48 n && Z.leb n 57 then Some (n - 48) else None.

(** Decimal digits with single underscores between them. *)
Fixpoint digits_value (cs : list ascii) (acc : Z) (after_digit : bool) : option Z :=
  match cs with
  | [] => if after_digit then Some acc else None
  | c :: rest =>
      match digit_of c with
      | Some d => digits_value rest (10 * acc + d) true
      | None => if Ascii.eqb c "_" && after_digit
                then digits_value rest acc false
                else None
      end
  end.

Fixpoint drop_spaces (cs : list ascii) : list ascii :=
  match cs with
  | c :: rest => if is_space c then drop_spaces rest else cs
  | [] => []
  end.

(** [int(s)] on ASCII text: surrounding white space, an optional sign, then
    decimal digits. *)
Definition ascii_int (s : string) : option Z :=
  let cs := rev (drop_spaces (rev (drop_spaces (list_ascii_of_string s)))) in
  match cs with
  | c :: rest =>
      if Ascii.eqb c "-" then option_map Z.opp (digits_value rest 0 false)
      else if Ascii.eqb c "+" then digits_value rest 0 false
      else digits_value cs 0 false
  | [] => None
  end.

Definition demo_root : string := "/data/MSCOCO2017".
Definition demo_train_dir : string := "/data/MSCOCO2017/train2017".
Definition demo_eval_dir : string := "/data/MSCOCO2017/val2017".
Definition demo_annotation_dir : string := "/data/MSCOCO2017/annotations".

Definition demo_box (x y w h : Z) : list value :=
  [VFloat x (-1); VFloat y (-1); VFloat w (-1); VFloat h (-1)].

(** Instance annotations: a crowd region on image 139, two objects on
    image 285, nothing on image 632. *)
Definition demo_instances : list annotation :=
  [ {| ann_id := 1; ann_image_id := 139; ann_iscrowd := true;
       ann_bbox := demo_box 10 20 300 400; ann_category_id := 1;
       ann_caption := EmptyString; ann_segmentation := [[true; true]] |};
    {| ann_id := 2; ann_image_id := 285; ann_iscrowd := false;
       ann_bbox := demo_box 4731 4307 387 2845; ann_category_id := 18;
       ann_caption := EmptyString; ann_segmentation := [[true; false]; [false; false]] |};
    {| ann_id := 3; ann_image_id := 285; ann_iscrowd := false;
       ann_bbox := demo_box 50 60 70 80; ann_category_id := 44;
       ann_caption := EmptyString; ann_segmentation := [[false; false]; [false; true]] |} ].

Definition demo_captions : list annotation :=
  [ {| ann_id := 10; ann_image_id := 285; ann_iscrowd := false;
       ann_bbox := []; ann_category_id := 0;
       ann_caption := "a bear on the grass"; ann_segmentation := [] |} ].

Definition demo_load (file : string) : option COCO :=
  if String.eqb file "/data/MSCOCO2017/annotations/instances_train2017.json"
     || String.eqb file "/data/MSCOCO2017/annotations/instances_val2017.json"
  then Some (coco_index demo_instances)
  else if String.eqb file "/data/MSCOCO2017/annotations/captions_train2017.json"
          || String.eqb file "/data/MSCOCO2017/annotations/captions_val2017.json"
  then Some (coco_index demo_captions)
  else None.

Definition demo_train_files : list string :=
  ["000000000139.jpg"; "000000000285.jpg"; "000000000632.jpg"].

Definition demo_unpack (zip_name : string) : option walk :=
  if String.eqb zip_name "train2017.zip"
  then Some [(demo_train_dir, demo_train_files)]
  else if String.eqb zip_name "val2017.zip"
  then Some [(demo_eval_dir, ["000000000285.jpg"; "000000000632.jpg"])]
  else if String.eqb zip_name "annotations_trainval2017.zip"
  then Some [(demo_annotation_dir,
              ["instances_train2017.json"; "instances_val2017.json";
               "captions_train2017.json"; "captions_val2017.json"])]
  else None.

Definition demo_ext : Externals := {|
  basename := posix_basename;
  splitext := posix_splitext;
  py_int := ascii_int;
  random_word := fun k => Z.of_nat k + 1;
  COCO_load := demo_load;
  unpack := demo_unpack;
  home := "/home/user";
  abspath := fun p => p
|}.

(** A machine on which nothing has been downloaded yet. *)
Definition empty_world : world :=
  {| heap := ∅; rng := O; opened := []; fs := ∅ |}.

(** A machine with the three directories in place. *)
Definition demo_world : world :=
  {| heap := ∅; rng := O; opened := [];
     fs := <[demo_train_dir := [(demo_train_dir, demo_train_files)]]>
             (<[demo_eval_dir := [(demo_eval_dir, ["000000000285.jpg"; "000000000632.jpg"])]]>
                (<[demo_annotation_dir := [(demo_annotation_dir, [])]]> ∅)) |}.

(** The train dataset built over [demo_world] with the given flags, and the
    world after its construction. *)
Definition demo_build (bboxes masks capts : bool) : Result MSCOCODataset * world :=
  __init__ demo_ext demo_train_dir
    "/data/MSCOCO2017/annotations/instances_train2017.json"
    "/data/MSCOCO2017/annotations/captions_train2017.json"
    bboxes masks capts demo_world.

Definition null_coco : COCO :=
  {| getAnnIds := fun _ _ => []; loadAnns := fun _ => []; annToMask := fun _ => [] |}.

Definition null_dataset : MSCOCODataset :=
  {| base := {| data := []; named := ∅ |}; include_bboxes := false;
     include_masks := false; instances := null_coco; captions := None |}.

Definition built (run : Result MSCOCODataset * world) : MSCOCODataset :=
  match fst run with Ok ds => ds | Err _ => null_dataset end.

Definition demo_full : MSCOCODataset := built (demo_build true true true).
Definition demo_full_world : world := snd (demo_build true true true).

Definition world_of {A} (run : option (Result A * world)) : world :=
  match run with Some (_, w) => w | None => empty_world end.

(** Position 0 (image 139, a crowd region only) is incomplete; the index
    drawn next is 1 (image 285), which is complete. *)
Definition demo_access : option (Result loc * world) :=
  __getitem__ demo_ext 5 demo_full (IdxInt 0) demo_full_world.

(** A directory that also holds a file whose name is not a number. *)
Definition misc_world : world :=
  {| heap := ∅; rng := O; opened := [];
     fs := <["/data/misc" := [("/data/misc", ["readme.txt"; "000000000285.jpg"])]]> ∅ |}.

Definition misc_build : Result MSCOCODataset * world :=
  __init__ demo_ext "/data/misc"
    "/data/MSCOCO2017/annotations/instances_train2017.json"
    "/data/MSCOCO2017/annotations/captions_train2017.json"
    true false false misc_world.

Definition misc_dataset : MSCOCODataset := built misc_build.
Definition misc_dataset_world : world := snd misc_build.

(** A dataset whose base also answers a string key: the record of image
    632, which has no annotation.  [keyed_dataset] has the default flags
    ([include_bboxes] only), [plain_dataset] has every flag off. *)
Definition keyed_base : DirDataset :=
  {| data := [0%nat]; named := {[ "000000000632" := 0%nat ]} |}.

Definition keyed_world : world :=
  {| heap := {[ 0%nat := {[ "image" := VStr "/data/MSCOCO2017/train2017/000000000632.jpg" ]} ]};
     rng := O; opened := []; fs := ∅ |}.

Definition keyed_dataset : MSCOCODataset :=
  {| base := keyed_base; include_bboxes := true; include_masks := false;
     instances := coco_index demo_instances; captions := None |}.

Definition plain_dataset : MSCOCODataset :=
  {| base := keyed_base; include_bboxes := false; include_masks := false;
     instances := coco_index demo_instances; captions := None |}.

Definition demo_base_run : Result DirDataset * world :=
  DirDataset_init demo_train_dir "image" demo_world.

Definition demo_base : DirDataset :=
  match fst demo_base_run with
  | Ok b => b
  | Err _ => {| data := []; named := ∅ |}
  end.

(** ** Further notions used by the results on the rest of the module *)

(** The contract of the caption index: the query without a crowd flag gives
    every annotation of the image, in source order. *)
Definition caption_index_of (c : COCO) (anns : list annotation) : Prop :=
  loadAnns c [] = []
  /\ forall image_id,
       loadAnns c (getAnnIds c image_id None)
       = List.filter (fun a => Z.eqb (ann_image_id a) image_id) anns.

(** The index that the [k]-th pass of [__getitem__] fetches, for an access
    that starts in world [w] with index [i]: [i] itself, then the indices
    drawn from the generator. *)
Definition nth_index (ext : Externals) (self : MSCOCODataset) (i : Z)
    (w : world) (k : nat) : Z :=
  match k with
  | O => i
  | S k' => random_word ext (rng w + k')%nat mod DirDataset_len (base self)
  end.

(** A walk cut down to its first [k] files, directory by directory. *)
Fixpoint prune (k : nat) (wk : walk) : walk :=
  match wk with
  | [] => []
  | (dirpath, filenames) :: rest =>
      (dirpath, take k filenames) :: prune (k - length filenames) rest
  end.

(** The same libraries with another archive source. *)
Definition with_unpack (ext : Externals) (u : string -> option walk) : Externals :=
  {| basename := basename ext; splitext := splitext ext; py_int := py_int ext;
     random_word := random_word ext; COCO_load := COCO_load ext;
     unpack := u; home := home ext; abspath := abspath ext |}.

(** A directory where an image without objects is followed by a file whose
    name is not a number. *)
Definition mixed_world : world :=
  {| heap := ∅; rng := O; opened := [];
     fs := <["/data/mixed" := [("/data/mixed", ["000000000139.jpg"; "notes.txt"])]]> ∅ |}.

Definition mixed_build : Result MSCOCODataset * world :=
  __init__ demo_ext "/data/mixed"
    "/data/MSCOCO2017/annotations/instances_train2017.json"
    "/data/MSCOCO2017/annotations/captions_train2017.json"
    true false false mixed_world.

Definition mixed_dataset : MSCOCODataset := built mixed_build.
Definition mixed_dataset_world : world := snd mixed_build.



Definition ok_pair (run : Result (MSCOCODataset * MSCOCODataset) * world)
    : MSCOCODataset * MSCOCODataset :=
  match fst run with
  | Ok p => p
  | Err _ => (null_dataset, null_dataset)
  end.

Definition demo_first_run : Result (MSCOCODataset * MSCOCODataset) * world :=
  load_data demo_ext (Some "/data") 2 true false false demo_world.

Definition demo_second_run : Result (MSCOCODataset * MSCOCODataset) * world :=
  load_data demo_ext (Some "/data") 2 true false false (snd demo_first_run).

Definition demo_fresh_run : Result (MSCOCODataset * MSCOCODataset) * world :=
  load_data demo_ext (Some "/data") 1 true false false empty_world.

(** Libraries whose archive source is out of reach. *)
Definition offline_ext : Externals := with_unpack demo_ext (fun _ => None).




(** * Proofs *)

(** ** The monad and the store *)


Lemma bind_ok {A B} (m : M A) (f : A -> M B) w a w' :
  m w = (Ok a, w') -> bind m f w = f a w'.
Proof. intros H. unfold bind. now rewrite H. Qed.

Lemma bind_err {A B} (m : M A) (f : A -> M B) w e w' :
  m w = (Err e, w') -> bind m f w = (Err e, w').
Proof. intros H. unfold bind. now rewrite H. Qed.

Lemma upd_lookup l d w : heap (upd l d w) !! l = Some d.
Proof. unfold upd. simpl. apply lookup_insert_eq. Qed.

Lemma upd_lookup_ne l l' d w : l <> l' -> heap (upd l d w) !! l' = heap w !! l'.
Proof. intros H. unfold upd. simpl. now apply lookup_insert_ne. Qed.

Lemma upd_upd l d d' w : upd l d' (upd l d w) = upd l d' w.
Proof. unfold upd, set_heap. simpl. now rewrite insert_insert_eq. Qed.

Lemma upd_id l d w : heap w !! l = Some d -> upd l d w = w.
Proof.
  intros H. unfold upd, set_heap. rewrite (insert_id _ _ _ H). now destruct w.
Qed.

Lemma upd_rng l d w : rng (upd l d w) = rng w.
Proof. reflexivity. Qed.

Lemma setfield_ok l k v w d :
  heap w !! l = Some d -> setfield l k v w = (Ok tt, upd l (<[k := v]> d) w).
Proof. intros H. unfold setfield. now rewrite H. Qed.

Lemma getfield_ok l k w d v :
  heap w !! l = Some d -> d !! k = Some v -> getfield l k w = (Ok v, w).
Proof. intros H1 H2. unfold getfield. now rewrite H1, H2. Qed.

Lemma getfield_missing l k w d :
  heap w !! l = Some d -> d !! k = None ->
  getfield l k w = (Err (KeyError (VStr k)), w).
Proof. intros H1 H2. unfold getfield. now rewrite H1, H2. Qed.

Lemma list_append_ok l k v w d items :
  heap w !! l = Some d -> d !! k = Some (VList items) ->
  list_append l k v w = (Ok tt, upd l (<[k := VList (items ++ [v])]> d) w).
Proof.
  intros H1 H2. unfold list_append.
  rewrite (bind_ok _ _ _ _ _ (getfield_ok _ _ _ _ _ H1 H2)).
  now apply setfield_ok.
Qed.

(** ** The two populating loops *)

Section Populate.
Context (self : MSCOCODataset).

Lemma instance_loop (l : loc) (anns : list annotation) :
  forall (d : gmap string value) w bs ms,
    heap w !! l = Some d ->
    d !! "bbox" = Some (VList bs) ->
    (include_masks self = true -> d !! "mask" = Some (VList ms)) ->
    for_each anns (fun annotation =>
      list_append l "bbox"
        (VTuple (ann_bbox annotation ++ [VInt (ann_category_id annotation)])) ;;
      if include_masks self
      then list_append l "mask" (VArray (annToMask (instances self) annotation))
      else ret tt) w
    = (Ok tt,
       upd l ((if include_masks self
               then <["mask" := VList (ms ++ map (mask_value self) anns)]>
               else fun m => m)
              (<["bbox" := VList (bs ++ map bbox_tuple anns)]> d)) w).
Proof.
  induction anns as [|a rest IH]; intros d w bs ms Hl Hb Hm.
  - simpl. rewrite !app_nil_r. unfold ret. f_equal. symmetry.
    apply upd_id. rewrite Hl. f_equal.
    destruct (include_masks self).
    + rewrite (insert_id _ _ _ Hb). now rewrite (insert_id _ _ _ (Hm eq_refl)).
    + now rewrite (insert_id _ _ _ Hb).
  - cbn [for_each].
    set (body := fun annotation : annotation => _).
    assert (Hbody : exists d1,
      body a w = (Ok tt, upd l d1 w)
      /\ d1 = (if include_masks self
               then <["mask" := VList (ms ++ [mask_value self a])]>
               else fun m => m)
              (<["bbox" := VList (bs ++ [bbox_tuple a])]> d)).
    { eexists. split; [|reflexivity]. unfold body.
      rewrite (bind_ok _ _ _ _ _ (list_append_ok _ _ _ _ _ _ Hl Hb)).
      destruct (include_masks self) eqn:Hmask.
      - erewrite list_append_ok.
        + now rewrite upd_upd.
        + apply upd_lookup.
        + rewrite lookup_insert_ne by discriminate. now apply Hm.
      - unfold ret. f_equal. }
    destruct Hbody as (d1 & Hrun & Hd1).
    rewrite (bind_ok _ _ _ _ _ Hrun). subst body.
    rewrite (IH d1 (upd l d1 w) (bs ++ [bbox_tuple a])%list
               (ms ++ [mask_value self a])%list).
    + rewrite upd_upd. f_equal. f_equal. subst d1.
      cbn [map]. rewrite <- !app_assoc. cbn [app].
      destruct (include_masks self).
      * apply map_eq. intros k.
        rewrite !lookup_insert. repeat case_decide; congruence.
      * now rewrite insert_insert_eq.
    + apply upd_lookup.
    + subst d1. destruct (include_masks self).
      * rewrite lookup_insert_ne by discriminate. apply lookup_insert_eq.
      * apply lookup_insert_eq.
    + intros Hmask. subst d1. rewrite Hmask. apply lookup_insert_eq.
Qed.

Lemma caption_loop (l : loc) (anns : list annotation) :
  forall (d : gmap string value) w cs,
    heap w !! l = Some d ->
    d !! "caption" = Some (VList cs) ->
    for_each anns (fun annotation =>
      list_append l "caption" (VStr (ann_caption annotation))) w
    = (Ok tt,
       upd l (<["caption" := VList (cs ++ map caption_value anns)]> d) w).
Proof.
  induction anns as [|a rest IH]; intros d w cs Hl Hc.
  - simpl. rewrite app_nil_r, (insert_id _ _ _ Hc).
    unfold ret. f_equal. symmetry. now apply upd_id.
  - cbn [for_each].
    rewrite (bind_ok _ _ _ _ _ (list_append_ok _ _ _ _ _ _ Hl Hc)).
    rewrite (IH _ _ (cs ++ [caption_value a])%list (upd_lookup _ _ _)).
    + rewrite upd_upd, insert_insert_eq. cbn [map].
      now rewrite <- app_assoc.
    + apply lookup_insert_eq.
Qed.

Lemma populate_instance_ok (l : loc) (image_id : Z) w d :
  heap w !! l = Some d ->
  _populate_instance_data self l image_id w
  = (Ok tt, upd l (with_instances self image_id d) w).
Proof.
  intros Hl. unfold _populate_instance_data, with_instances, with_masks, instance_anns.
  rewrite (bind_ok _ _ _ _ _ (setfield_ok _ _ _ _ _ Hl)).
  set (d1 := <["bbox" := VList []]> d).
  assert (Hmask : exists d2,
    (if include_masks self then setfield l "mask" (VList []) else ret tt) (upd l d1 w)
      = (Ok tt, upd l d2 w)
    /\ d2 = (if include_masks self then <["mask" := VList []]> d1 else d1)).
  { eexists. split; [|reflexivity]. destruct (include_masks self).
    - rewrite (setfield_ok _ _ _ _ _ (upd_lookup _ _ _)). now rewrite upd_upd.
    - reflexivity. }
  destruct Hmask as (d2 & Hrun & Hd2).
  rewrite (bind_ok _ _ _ _ _ Hrun).
  destruct (nonempty (getAnnIds (instances self) image_id (Some false))).
  - rewrite (instance_loop l _ d2 (upd l d2 w) [] []).
    + rewrite upd_upd. f_equal. f_equal. subst d2 d1. cbn [app].
      destruct (include_masks self); apply map_eq; intros k;
        rewrite !lookup_insert; repeat case_decide; congruence.
    + apply upd_lookup.
    + subst d2 d1. destruct (include_masks self).
      * rewrite lookup_insert_ne by discriminate. apply lookup_insert_eq.
      * apply lookup_insert_eq.
    + intros Hm. subst d2. rewrite Hm. apply lookup_insert_eq.
  - unfold ret. subst d2 d1. cbn [map]. now destruct (include_masks self).
Qed.

Lemma populate_caption_ok (capts : COCO) (l : loc) (image_id : Z) w d :
  heap w !! l = Some d ->
  _populate_caption_data capts l image_id w
  = (Ok tt, upd l (with_captions capts image_id d) w).
Proof.
  intros Hl. unfold _populate_caption_data, with_captions, caption_anns.
  rewrite (bind_ok _ _ _ _ _ (setfield_ok _ _ _ _ _ Hl)).
  destruct (nonempty (getAnnIds capts image_id None)).
  - rewrite (caption_loop l _ _ _ [] (upd_lookup _ _ _) (lookup_insert_eq _ _ _)).
    now rewrite upd_upd, insert_insert_eq.
  - reflexivity.
Qed.

End Populate.

(** ** Fetching one sample *)

Section Access.
Context (ext : Externals) (self : MSCOCODataset).


Lemma next_loc_fresh w : heap w !! next_loc w = None.
Proof. apply not_elem_of_dom. unfold next_loc. apply is_fresh. Qed.

Lemma deepcopy_ok l w d :
  heap w !! l = Some d -> deepcopy l w = (Ok (next_loc w), upd (next_loc w) d w).
Proof. intros H. unfold deepcopy. now rewrite H. Qed.

(** After the copy and the parse, the rest of [_get_single_item] succeeds. *)
Lemma get_single_item_tail (l : loc) (image_id : Z) w d :
  heap w !! l = Some d ->
  (setfield l "image_id" (VInt image_id) ;;
   (if include_bboxes self
    then _populate_instance_data self l image_id else ret tt) ;;
   (match captions self with
    | Some capts => _populate_caption_data capts l image_id
    | None => ret tt
    end) ;;
   ret l) w
  = (Ok l, upd l (sample_record self image_id d) w).
Proof.
  intros Hl. unfold sample_record.
  rewrite (bind_ok _ _ _ _ _ (setfield_ok _ _ _ _ _ Hl)).
  set (d1 := <["image_id" := VInt image_id]> d).
  assert (Hbox : (if include_bboxes self
                  then _populate_instance_data self l image_id else ret tt)
                   (upd l d1 w)
                 = (Ok tt, upd l (if include_bboxes self
                                  then with_instances self image_id d1 else d1) w)).
  { destruct (include_bboxes self); [|reflexivity].
    rewrite (populate_instance_ok self _ _ _ _ (upd_lookup _ _ _)).
    now rewrite upd_upd. }
  rewrite (bind_ok _ _ _ _ _ Hbox).
  destruct (captions self) as [capts|].
  - rewrite (bind_ok _ _ _ _ _
               (populate_caption_ok capts _ _ _ _ (upd_lookup _ _ _))).
    now rewrite upd_upd.
  - reflexivity.
Qed.

(** [_get_single_item] at an integer index: it succeeds exactly when
    [fetch] gives a record, and then stores that record in a new object;
    when it fails, at most the copy of the base record has been added. *)
Lemma get_single_item_int (i : Z) w :
  match fetch ext self (heap w) i with
  | Some r =>
      _get_single_item ext self (IdxInt i) w
      = (Ok (next_loc w), upd (next_loc w) r w)
  | None =>
      exists e w',
        _get_single_item ext self (IdxInt i) w = (Err e, w')
        /\ (w' = w \/ exists d, w' = upd (next_loc w) d w)
  end.
Proof.
  unfold fetch, _get_single_item, DirDataset_getitem.
  destruct (Z.ltb i 0).
  { eexists _, _. split; [reflexivity | now left]. }
  destruct (data (base self) !! Z.to_nat i) as [l0|].
  2:{ eexists _, _. split; [reflexivity | now left]. }
  rewrite (bind_ok _ _ w l0 w eq_refl).
  destruct (heap w !! l0) as [d0|] eqn:Hl0.
  2:{ eexists _, _. split; [|now left].
      apply bind_err. unfold deepcopy. now rewrite Hl0. }
  rewrite (bind_ok _ _ _ _ _ (deepcopy_ok _ _ _ Hl0)).
  destruct (d0 !! "image") as [image|] eqn:Himg.
  2:{ eexists _, _. split; [|right; now eexists].
      apply bind_err. apply getfield_missing with (d := d0); [apply upd_lookup | done]. }
  rewrite (bind_ok _ _ _ _ _ (getfield_ok _ _ _ _ _ (upd_lookup _ _ _) Himg)).
  destruct image as [| | path | | |];
    try (eexists _, _; split; [reflexivity | right; now eexists]).
  unfold stem_id, parse_image_id.
  destruct (py_int ext (fst (splitext ext (basename ext path)))) as [image_id|].
  2:{ eexists _, _. split; [reflexivity | right; now eexists]. }
  rewrite (bind_ok _ _ _ image_id _ eq_refl).
  rewrite (get_single_item_tail _ _ _ _ (upd_lookup _ _ _)).
  now rewrite upd_upd.
Qed.

Lemma get_single_item_fetch (i : Z) w r :
  fetch ext self (heap w) i = Some r ->
  _get_single_item ext self (IdxInt i) w
  = (Ok (next_loc w), upd (next_loc w) r w).
Proof. intros H. pose proof (get_single_item_int i w) as G. now rewrite H in G. Qed.

Lemma get_single_item_inv (i : Z) w l w' :
  _get_single_item ext self (IdxInt i) w = (Ok l, w') ->
  exists r, fetch ext self (heap w) i = Some r
            /\ l = next_loc w /\ w' = upd (next_loc w) r w.
Proof.
  intros H. pose proof (get_single_item_int i w) as G.
  destruct (fetch ext self (heap w) i) as [r|].
  - rewrite G in H. inversion H. now exists r.
  - destruct G as (e & w1 & G & _). rewrite G in H. discriminate.
Qed.

(** A string key: the stored record itself, nothing else done. *)
Lemma get_single_item_str (k : string) w :
  _get_single_item ext self (IdxStr k) w
  = match named (base self) !! k with
    | Some l => (Ok l, w)
    | None => (Err (KeyError (VStr k)), w)
    end.
Proof.
  unfold _get_single_item, DirDataset_getitem.
  now destruct (named (base self) !! k).
Qed.

End Access.

(** ** Fields of a sample record *)

Section Fields.
Context (self : MSCOCODataset) (image_id : Z) (d : gmap string value).

Ltac fields :=
  unfold sample_record, with_captions, with_instances, with_masks;
  repeat match goal with
         | |- context [match ?x with _ => _ end] => destruct x
         end;
  rewrite ?lookup_insert; repeat case_decide; try congruence; try discriminate.

Lemma sample_image : sample_record self image_id d !! "image" = d !! "image".
Proof. fields. Qed.

Lemma sample_image_id :
  sample_record self image_id d !! "image_id" = Some (VInt image_id).
Proof. fields. Qed.

Lemma sample_bbox :
  include_bboxes self = true ->
  sample_record self image_id d !! "bbox"
  = Some (VList (map bbox_tuple (instance_anns (instances self) image_id))).
Proof. intros H. unfold sample_record. rewrite H. fields. Qed.

Lemma sample_mask :
  include_bboxes self = true -> include_masks self = true ->
  sample_record self image_id d !! "mask"
  = Some (VList (map (mask_value self) (instance_anns (instances self) image_id))).
Proof.
  intros H1 H2. unfold sample_record, with_instances, with_masks.
  rewrite H1, H2. fields.
Qed.

Lemma sample_caption capts :
  captions self = Some capts ->
  sample_record self image_id d !! "caption"
  = Some (VList (map caption_value (caption_anns capts image_id))).
Proof. intros H. unfold sample_record. rewrite H. fields. Qed.

End Fields.

(** ** One pass of the retry loop *)

Section Loop.
Context (ext : Externals) (self : MSCOCODataset).
Hypothesis Hvalid : valid_config self.

Lemma truthy_list_nonempty (items : list value) :
  truthy (VList items) = true <-> items <> [].
Proof. destruct items; simpl; split; congruence. Qed.

Lemma fetch_in_range h i r :
  fetch ext self h i = Some r -> 0 <= i < DirDataset_len (base self).
Proof.
  unfold fetch, DirDataset_len. destruct (Z.ltb_spec i 0); [discriminate|].
  destruct (data (base self) !! Z.to_nat i) eqn:E; [|discriminate].
  intros _. apply lookup_lt_Some in E. lia.
Qed.

Lemma fetch_record h i r :
  fetch ext self h i = Some r ->
  exists d path image_id,
    d !! "image" = Some (VStr path) /\ stem_id ext path = Some image_id
    /\ r = sample_record self image_id d.
Proof.
  unfold fetch. destruct (Z.ltb i 0); [discriminate|].
  destruct (data (base self) !! Z.to_nat i); [|discriminate].
  destruct (h !! l) as [d|]; [|discriminate].
  destruct (d !! "image") as [[| |path| | |]|] eqn:E; try discriminate.
  destruct (stem_id ext path) as [image_id|] eqn:E'; [|discriminate].
  intros [= <-]. now exists d, path, image_id.
Qed.

(** The fields the loop reads are present in every fetched record. *)
Lemma fetch_fields h i r :
  fetch ext self h i = Some r ->
  (include_bboxes self = true -> exists items, r !! "bbox" = Some (VList items))
  /\ (include_masks self = true -> exists items, r !! "mask" = Some (VList items))
  /\ (is_Some (captions self) -> exists items, r !! "caption" = Some (VList items)).
Proof.
  intros H. destruct (fetch_record _ _ _ H) as (d & path & image_id & _ & _ & ->).
  split; [|split].
  - intros Hb. eexists. now apply sample_bbox.
  - intros Hm. eexists. apply sample_mask; [apply Hvalid; exact Hm | exact Hm].
  - intros [capts Hc]. eexists. exact (sample_caption _ _ _ _ Hc).
Qed.

Lemma missing_ok flag l key w r :
  heap w !! l = Some r ->
  (flag = true -> is_Some (r !! key)) ->
  missing flag l key w = (Ok (negb (implb flag (field_true r key))), w).
Proof.
  intros Hl Hk. unfold missing, field_true. destruct flag; [|reflexivity].
  destruct (Hk eq_refl) as [v Hv].
  rewrite (bind_ok _ _ _ _ _ (getfield_ok _ _ _ _ _ Hl Hv)). now rewrite Hv.
Qed.

Lemma randint_ok high w :
  0 < high ->
  randint ext high w = (Ok (random_word ext (rng w) mod high), set_rng (S (rng w)) w).
Proof. intros H. unfold randint. destruct (Z.leb_spec high 0); [lia | done]. Qed.

Lemma drawn_in_range w :
  0 < DirDataset_len (base self) -> 0 <= drawn ext self w < DirDataset_len (base self).
Proof. intros H. unfold drawn. now apply Z.mod_pos_bound. Qed.

(** A pass whose fetch succeeds: the record is stored in a new object, the
    completeness test is the one of the spec, and the next index is drawn. *)
Lemma loop_body_fetch i w r :
  fetch ext self (heap w) i = Some r ->
  loop_body ext self (IdxInt i) w
  = (Ok (next_loc w, complete self r, IdxInt (drawn ext self w)), after_pass r w).
Proof.
  intros Hf. unfold loop_body.
  rewrite (bind_ok _ _ _ _ _ (get_single_item_fetch ext self _ _ _ Hf)).
  destruct (fetch_fields _ _ _ Hf) as (Hb & Hm & Hc).
  pose proof (upd_lookup (next_loc w) r w) as Hl.
  assert (HB : include_bboxes self = true -> is_Some (r !! "bbox")).
  { intros E. destruct (Hb E) as [items Hi]. now exists (VList items). }
  assert (HM : include_masks self = true -> is_Some (r !! "mask")).
  { intros E. destruct (Hm E) as [items Hi]. now exists (VList items). }
  assert (HC : match captions self with Some _ => true | None => false end = true ->
               is_Some (r !! "caption")).
  { intros E. destruct (captions self) as [c|] eqn:Ec; [|discriminate].
    destruct (Hc (ex_intro _ c eq_refl)) as [items Hi]. now exists (VList items). }
  rewrite (bind_ok _ _ _ _ _ (missing_ok _ _ "bbox" _ _ Hl HB)).
  rewrite (bind_ok _ _ _ _ _ (missing_ok _ _ "mask" _ _ Hl HM)).
  rewrite (bind_ok _ _ _ _ _ (missing_ok _ _ "caption" _ _ Hl HC)).
  pose proof (fetch_in_range _ _ _ Hf) as Hr.
  assert (Hlen : 0 < DirDataset_len (base self)) by lia.
  rewrite (bind_ok _ _ _ _ _ (randint_ok _ (upd (next_loc w) r w) Hlen)).
  unfold ret, complete, after_pass, drawn. rewrite !negb_involutive. reflexivity.
Qed.

(** A pass whose fetch fails raises, without drawing a random index. *)
Lemma loop_body_no_fetch i w :
  fetch ext self (heap w) i = None ->
  exists e w', loop_body ext self (IdxInt i) w = (Err e, w')
               /\ rng w' = rng w
               /\ (w' = w \/ exists d, w' = upd (next_loc w) d w).
Proof.
  intros Hf. pose proof (get_single_item_int ext self i w) as G.
  rewrite Hf in G. destruct G as (e & w' & G & Hw).
  exists e, w'. split; [|split].
  - unfold loop_body. now apply bind_err.
  - destruct Hw as [-> | [d ->]]; reflexivity.
  - exact Hw.
Qed.

(** Unfolding [__getitem__] by one pass. *)
Lemma getitem_step fuel i w r :
  fetch ext self (heap w) i = Some r ->
  __getitem__ ext (S fuel) self (IdxInt i) w
  = if complete self r then Some (Ok (next_loc w), after_pass r w)
    else __getitem__ ext fuel self (IdxInt (drawn ext self w)) (after_pass r w).
Proof. intros Hf. cbn [__getitem__]. now rewrite (loop_body_fetch _ _ _ Hf). Qed.

(** Objects that exist are not touched by a pass: later fetches see the same
    base records. *)
Lemma fetch_after_pass w r0 j r :
  fetch ext self (heap w) j = Some r ->
  fetch ext self (heap (after_pass r0 w)) j = Some r.
Proof.
  unfold fetch. destruct (Z.ltb j 0); [discriminate|].
  destruct (data (base self) !! Z.to_nat j) as [l|]; [|discriminate].
  destruct (heap w !! l) as [d|] eqn:E; [|discriminate].
  intros H. cbn [after_pass set_rng heap].
  rewrite upd_lookup_ne, E; [exact H|].
  intros <-. rewrite next_loc_fresh in E. discriminate.
Qed.

Lemma all_fetch_after_pass w r0 :
  all_fetch ext self (heap w) -> all_fetch ext self (heap (after_pass r0 w)).
Proof.
  intros H j Hj. destruct (H j Hj) as [r Hr].
  exists r. now apply fetch_after_pass.
Qed.

Lemma heap_le_refl w : heap_le w w.
Proof. now intros l d H. Qed.

Lemma heap_le_trans w1 w2 w3 : heap_le w1 w2 -> heap_le w2 w3 -> heap_le w1 w3.
Proof. intros H1 H2 l d H. now apply H2, H1. Qed.

Lemma heap_le_upd_fresh w d : heap_le w (upd (next_loc w) d w).
Proof.
  intros l d0 H. rewrite upd_lookup_ne; [exact H|].
  intros <-. rewrite next_loc_fresh in H. discriminate.
Qed.

Lemma heap_le_after_pass w r : heap_le w (after_pass r w).
Proof. apply heap_le_upd_fresh. Qed.

Lemma after_pass_lookup w r : heap (after_pass r w) !! next_loc w = Some r.
Proof. apply upd_lookup. Qed.

Lemma missing_cases flag l key w r :
  heap w !! l = Some r ->
  missing flag l key w
  = (if flag
     then match r !! key with
          | Some v => Ok (negb (truthy v))
          | None => Err (KeyError (VStr key))
          end
     else Ok false, w).
Proof.
  intros Hl. unfold missing. destruct flag; [|reflexivity].
  destruct (r !! key) as [v|] eqn:E.
  - now rewrite (bind_ok _ _ _ _ _ (getfield_ok _ _ _ _ _ Hl E)).
  - now rewrite (bind_err _ _ _ _ _ (getfield_missing _ _ _ _ Hl E)).
Qed.

(** A pass that does not raise has fetched a record, stored it in a new
    object, evaluated the completeness test on it and drawn an index. *)
Lemma loop_body_inv i w l b next w' :
  loop_body ext self (IdxInt i) w = (Ok (l, b, next), w') ->
  exists r, fetch ext self (heap w) i = Some r
            /\ l = next_loc w /\ b = complete self r
            /\ next = IdxInt (drawn ext self w) /\ w' = after_pass r w.
Proof.
  intros H. destruct (fetch ext self (heap w) i) as [r|] eqn:Hf.
  2:{ destruct (loop_body_no_fetch _ _ Hf) as (e & w1 & G & _).
      rewrite G in H. discriminate. }
  exists r. split; [reflexivity|].
  unfold loop_body in H.
  rewrite (bind_ok _ _ _ _ _ (get_single_item_fetch ext self _ _ _ Hf)) in H.
  pose proof (upd_lookup (next_loc w) r w) as Hl.
  unfold bind in H at 1. rewrite (missing_cases _ _ "bbox" _ _ Hl) in H.
  unfold bind in H at 1. rewrite (missing_cases _ _ "mask" _ _ Hl) in H.
  unfold bind in H at 1. rewrite (missing_cases _ _ "caption" _ _ Hl) in H.
  pose proof (fetch_in_range _ _ _ Hf) as Hr.
  assert (Hlen : 0 < DirDataset_len (base self)) by lia.
  unfold complete, field_true.
  destruct (include_bboxes self), (r !! "bbox"); try discriminate;
  destruct (include_masks self), (r !! "mask"); try discriminate;
  destruct (captions self), (r !! "caption"); try discriminate;
  rewrite (bind_ok _ _ _ _ _ (randint_ok _ _ Hlen)) in H;
  unfold ret in H; injection H as <- <- <- <-;
  rewrite ?negb_involutive; repeat split; reflexivity.
Qed.

(** A successful access ends in a pass that fetched a complete record; the
    objects that existed when the access started are all still there. *)
Lemma getitem_int_ok fuel :
  forall i w l w',
    __getitem__ ext fuel self (IdxInt i) w = Some (Ok l, w') ->
    exists j w0 r,
      fetch ext self (heap w0) j = Some r /\ complete self r = true
      /\ l = next_loc w0 /\ w' = after_pass r w0 /\ heap_le w w0.
Proof.
  induction fuel as [|fuel IH]; intros i w l w' H; [discriminate|].
  cbn [__getitem__] in H.
  destruct (loop_body ext self (IdxInt i) w) as [[[[l1 b] next]|e] w1] eqn:Hb;
    [|discriminate].
  destruct (loop_body_inv _ _ _ _ _ _ Hb) as (r & Hf & -> & -> & -> & ->).
  destruct (complete self r) eqn:Hc.
  - injection H as <- <-. exists i, w, r.
    split; [exact Hf|]. split; [exact Hc|]. split; [reflexivity|].
    split; [reflexivity | apply heap_le_refl].
  - destruct (IH _ _ _ _ H) as (j & w0 & r0 & Hf0 & Hc0 & Hl0 & Hw0 & Hle).
    exists j, w0, r0.
    split; [exact Hf0|]. split; [exact Hc0|]. split; [exact Hl0|].
    split; [exact Hw0|].
    eapply heap_le_trans; [apply heap_le_after_pass | exact Hle].
Qed.

End Loop.

(** ** Construction *)

Section Construct.
Context (ext : Externals).

Lemma store_records_ok key paths :
  forall w, exists ls w',
    store_records key paths w = (Ok ls, w')
    /\ length ls = length paths
    /\ opened w' = opened w /\ fs w' = fs w /\ rng w' = rng w.
Proof.
  induction paths as [|p rest IH]; intros w.
  - exists [], w. now repeat split.
  - cbn [store_records]. unfold bind at 1.
    set (w1 := set_heap _ w).
    destruct (IH w1) as (ls & w' & Hrun & Hlen & Ho & Hf & Hr).
    exists (fresh (dom (heap w)) :: ls), w'.
    rewrite (bind_ok _ _ _ _ _ Hrun). unfold ret.
    split; [reflexivity|]. split; [simpl; now rewrite Hlen|].
    now rewrite Ho, Hf, Hr.
Qed.

(** The base constructor: it fails exactly when the directory is missing,
    and otherwise holds one record per file listed in the directory. *)
Lemma DirDataset_init_cases dir key w :
  match fs w !! dir with
  | Some wk =>
      exists b w', DirDataset_init dir key w = (Ok b, w')
                   /\ DirDataset_len b = Z.of_nat (length (top_files wk))
                   /\ opened w' = opened w /\ fs w' = fs w /\ rng w' = rng w
  | None =>
      DirDataset_init dir key w
      = (Err (AssertionError "Provided path is not a directory"), w)
  end.
Proof.
  unfold DirDataset_init. destruct (fs w !! dir) as [wk|] eqn:E.
  - destruct (store_records_ok key (top_files wk) w)
      as (ls & w' & Hrun & Hlen & Ho & Hf & Hr).
    exists {| data := ls; named := ∅ |}, w'.
    unfold bind at 1. rewrite E. rewrite (bind_ok _ _ _ _ _ Hrun).
    unfold ret, DirDataset_len. cbn [data]. now rewrite Hlen.
  - unfold bind. now rewrite E.
Qed.

Lemma DirDataset_init_ok dir key w b w1 :
  DirDataset_init dir key w = (Ok b, w1) ->
  exists wk, fs w !! dir = Some wk
             /\ DirDataset_len b = Z.of_nat (length (top_files wk))
             /\ opened w1 = opened w /\ fs w1 = fs w /\ rng w1 = rng w.
Proof.
  intros H. pose proof (DirDataset_init_cases dir key w) as G.
  destruct (fs w !! dir) as [wk|].
  - destruct G as (b' & w' & G & Hlen & Ho & Hf & Hr).
    rewrite G in H. injection H as <- <-. now exists wk.
  - rewrite G in H. discriminate.
Qed.

Lemma DirDataset_init_err dir key w e w1 :
  DirDataset_init dir key w = (Err e, w1) ->
  fs w !! dir = None
  /\ e = AssertionError "Provided path is not a directory" /\ w1 = w.
Proof.
  intros H. pose proof (DirDataset_init_cases dir key w) as G.
  destruct (fs w !! dir) as [wk|].
  - destruct G as (b' & w' & G & _). rewrite G in H. discriminate.
  - rewrite G in H. now injection H as <- <-.
Qed.

Lemma init_unfold dir ann cap bb mk cp w :
  __init__ ext dir ann cap bb mk cp w
  = match DirDataset_init dir "image" w with
    | (Ok b, w1) => init_after_base ext b ann cap bb mk cp w1
    | (Err e, w1) => (Err e, w1)
    end.
Proof.
  unfold __init__, init_after_base, mask_without_bbox, COCO_open.
  unfold bind at 1. destruct (DirDataset_init dir "image" w) as [[b|e] w1]; [|reflexivity].
  destruct mk, bb; cbn [andb negb]; unfold bind, ret, raise;
    destruct (COCO_load ext ann); try reflexivity;
    destruct cp; try reflexivity;
    cbn [opened set_opened]; destruct (COCO_load ext cap); reflexivity.
Qed.

(** What a successful construction establishes. *)
Lemma init_ok_fields dir ann cap bb mk cp w self w' :
  __init__ ext dir ann cap bb mk cp w = (Ok self, w') ->
  include_bboxes self = bb /\ include_masks self = mk
  /\ (is_Some (captions self) <-> cp = true)
  /\ valid_config self.
Proof.
  rewrite init_unfold.
  destruct (DirDataset_init dir "image" w) as [[b|e] w1]; [|discriminate].
  unfold init_after_base, valid_config.
  destruct mk, bb; cbn [andb negb]; try discriminate;
    destruct (COCO_load ext ann); try discriminate;
    destruct cp; try discriminate;
    try (destruct (COCO_load ext cap); try discriminate);
    intros [= <- <-]; cbn; repeat split; try done;
    try (intros [? ?]; discriminate); try (now eexists).
Qed.

End Construct.

(** ** The retry loop on a dataset whose every position can be fetched *)

Section Retry.
Context (ext : Externals) (self : MSCOCODataset).
Hypothesis Hvalid : valid_config self.

Lemma fetch_after_pass_inv w r0 j r :
  all_fetch ext self (heap w) ->
  fetch ext self (heap (after_pass r0 w)) j = Some r ->
  fetch ext self (heap w) j = Some r.
Proof.
  intros Hall H. destruct (Hall j (fetch_in_range _ _ _ _ _ H)) as [r' Hr'].
  rewrite (fetch_after_pass ext self w r0 j r' Hr') in H. congruence.
Qed.



End Retry.

(** ** The annotation index *)

Lemma ann_id_inj (anns : list annotation) (a b : annotation) :
  NoDup (map ann_id anns) -> In a anns -> In b anns ->
  ann_id a = ann_id b -> a = b.
Proof.
  induction anns as [|x rest IH]; intros Hnd Ha Hb E; [destruct Ha|].
  cbn [map] in Hnd. inversion Hnd as [|? ? Hx Hrest]; subst.
  destruct Ha as [<-|Ha], Hb as [<-|Hb].
  - reflexivity.
  - exfalso. apply Hx. rewrite E. apply list_elem_of_In. now apply in_map.
  - exfalso. apply Hx. rewrite <- E. apply list_elem_of_In. now apply in_map.
  - now apply IH.
Qed.

Lemma find_by_id (anns : list annotation) (a : annotation) :
  NoDup (map ann_id anns) -> In a anns ->
  find (fun b => Z.eqb (ann_id b) (ann_id a)) (rev anns) = Some a.
Proof.
  intros Hnd Ha.
  destruct (find (fun b => Z.eqb (ann_id b) (ann_id a)) (rev anns)) as [b|] eqn:E.
  - apply find_some in E. destruct E as [Hb Hid].
    apply in_rev in Hb. apply Z.eqb_eq in Hid.
    f_equal. now apply (ann_id_inj anns).
  - apply find_none with (x := a) in E; [|now apply in_rev in Ha].
    rewrite Z.eqb_refl in E. discriminate.
Qed.

Lemma load_by_ids (anns sel : list annotation) :
  NoDup (map ann_id anns) -> (forall a, In a sel -> In a anns) ->
  loadAnns (coco_index anns) (map ann_id sel) = sel.
Proof.
  intros Hnd. induction sel as [|a rest IH]; intros Hsub; [reflexivity|].
  cbn [map coco_index loadAnns flat_map].
  rewrite (find_by_id anns a Hnd (Hsub a (or_introl eq_refl))).
  cbn [app]. f_equal. apply IH. intros b Hb. apply Hsub. now right.
Qed.

(** The index built from a file whose annotation ids are distinct answers
    queries with the non-crowd annotations of the image, in file order. *)
Lemma coco_index_contract (anns : list annotation) :
  NoDup (map ann_id anns) -> index_of (coco_index anns) anns.
Proof.
  intros Hnd. split; [reflexivity|]. intros image_id.
  cbn [getAnnIds coco_index].
  rewrite load_by_ids; [|exact Hnd|].
  - apply List.filter_ext. intros a. unfold non_crowd_of.
    now destruct (ann_iscrowd a).
  - intros a Ha. now apply List.filter_In in Ha.
Qed.

(** ** Access and the store *)

Section Frame.
Context (ext : Externals) (self : MSCOCODataset).

Lemma missing_world flag l key w : snd (missing flag l key w) = w.
Proof.
  unfold missing, bind, getfield, ret. destruct flag; [|reflexivity].
  destruct (heap w !! l) as [d|]; [|reflexivity].
  now destruct (d !! key).
Qed.

Lemma randint_heap high w : heap (snd (randint ext high w)) = heap w.
Proof. unfold randint. now destruct (Z.leb high 0). Qed.

(** The checks and the draw of a pass leave the store as the fetch left it. *)
Lemma loop_body_heap idx w :
  heap (snd (loop_body ext self idx w))
  = heap (snd (_get_single_item ext self idx w)).
Proof.
  unfold loop_body. unfold bind at 1.
  destruct (_get_single_item ext self idx w) as [[l|e] w1]; [|reflexivity].
  cbn [snd].
  unfold bind at 1. pose proof (missing_world (include_bboxes self) l "bbox" w1) as E1.
  destruct (missing (include_bboxes self) l "bbox" w1) as [[b1|e1] w2];
    cbn [snd] in E1; subst w2; [|reflexivity].
  unfold bind at 1. pose proof (missing_world (include_masks self) l "mask" w1) as E2.
  destruct (missing (include_masks self) l "mask" w1) as [[b2|e2] w2];
    cbn [snd] in E2; subst w2; [|reflexivity].
  unfold bind at 1.
  set (flag := match captions self with Some _ => true | None => false end).
  pose proof (missing_world flag l "caption" w1) as E3.
  destruct (missing flag l "caption" w1) as [[b3|e3] w2];
    cbn [snd] in E3; subst w2; [|reflexivity].
  unfold bind. pose proof (randint_heap (DirDataset_len (base self)) w1) as E4.
  now destruct (randint ext (DirDataset_len (base self)) w1) as [[z|e4] w2].
Qed.




(** A pass on a string key hands out the base dataset's own record; it is
    an integer index that the pass draws for the next one. *)
Lemma loop_body_str_inv k w l b next w' :
  loop_body ext self (IdxStr k) w = (Ok (l, b, next), w') ->
  named (base self) !! k = Some l
  /\ heap w' = heap w
  /\ exists j, next = IdxInt j.
Proof.
  intros H.
  pose proof (loop_body_heap (IdxStr k) w) as Hh. rewrite H in Hh. cbn [snd] in Hh.
  unfold loop_body in H. unfold bind at 1 in H.
  rewrite get_single_item_str in H. rewrite get_single_item_str in Hh.
  destruct (named (base self) !! k) as [l0|]; [|discriminate].
  cbn [snd] in Hh.
  unfold bind, ret in H.
  destruct (missing (include_bboxes self) l0 "bbox" w) as [[b1|e1] w1]; [|discriminate].
  destruct (missing (include_masks self) l0 "mask" w1) as [[b2|e2] w2]; [|discriminate].
  destruct (missing _ l0 "caption" w2) as [[b3|e3] w3]; [|discriminate].
  destruct (randint ext (DirDataset_len (base self)) w3) as [[z|e4] w4]; [|discriminate].
  injection H as <- _ <- _. split; [reflexivity|]. split; [exact Hh|]. now exists z.
Qed.


End Frame.

(** ** Subsampling *)

Lemma subsample_files_spec (n : Z) (files : list string) :
  forall c,
    subsample_files n files c
    = (c + Z.of_nat (length (take (Z.to_nat (n - c)) files)),
       take (Z.to_nat (n - c)) files).
Proof.
  induction files as [|f rest IH]; intros c.
  - cbn [subsample_files]. rewrite take_nil. cbn [length]. f_equal. lia.
  - cbn [subsample_files]. destruct (Z.ltb_spec c n) as [Hlt|Hge].
    + rewrite IH.
      replace (Z.to_nat (n - c)) with (S (Z.to_nat (n - (c + 1)))) by lia.
      cbn [take length]. f_equal. lia.
    + rewrite IH. replace (Z.to_nat (n - c)) with O by lia.
      now rewrite !take_0.
Qed.

Lemma all_files_cons (dirpath : string) (files : list string) (rest : walk) :
  all_files ((dirpath, files) :: rest)
  = (map (path_join dirpath) files ++ all_files rest)%list.
Proof. reflexivity. Qed.

(** The walk after subsampling holds the first [n - c] files of the walk
    before it, in traversal order; the same holds for the top directory. *)
Lemma subsample_walk_spec (n : Z) (wk : walk) :
  forall c,
    all_files (snd (subsample_walk n wk c)) = take (Z.to_nat (n - c)) (all_files wk)
    /\ top_files (snd (subsample_walk n wk c)) = take (Z.to_nat (n - c)) (top_files wk)
    /\ map fst (snd (subsample_walk n wk c)) = map fst wk.
Proof.
  induction wk as [|[dirpath files] rest IH]; intros c.
  - cbn. now rewrite take_nil.
  - cbn [subsample_walk]. rewrite subsample_files_spec.
    set (k := Z.to_nat (n - c)).
    set (c1 := c + Z.of_nat (length (take k files))).
    destruct (IH c1) as (Hall & _ & Hdirs).
    destruct (subsample_walk n rest c1) as [c2 rest'] eqn:E. cbn [snd] in *.
    split; [|split].
    + rewrite !all_files_cons, Hall.
      rewrite take_app. unfold path_join at 2.
      rewrite <- (fmap_take (path_join dirpath)).
      change (path_join dirpath <$> take k files)
        with (map (path_join dirpath) (take k files)).
      f_equal. rewrite length_map.
      assert (Hlen : length (take k files) = Nat.min k (length files))
        by apply length_take.
      destruct (Nat.le_gt_cases (length files) k) as [Hle|Hgt].
      * f_equal. subst c1 k. lia.
      * replace (Z.to_nat (n - c1)) with O by (subst c1 k; lia).
        replace (k - length files)%nat with O by lia. reflexivity.
    + cbn [top_files].
      rewrite <- (fmap_take (path_join dirpath)). reflexivity.
    + cbn [map fst]. now rewrite Hdirs.
Qed.

Lemma take_count {A} (n : Z) (l : list A) :
  Z.of_nat (length (take (Z.to_nat n) l)) = Z.min (Z.max 0 n) (Z.of_nat (length l)).
Proof. rewrite length_take. lia. Qed.

Lemma data_subsample_present dir n w wk :
  fs w !! dir = Some wk ->
  data_subsample dir n w
  = (Ok tt, set_fs (<[dir := snd (subsample_walk n wk 0)]> (fs w)) w).
Proof. intros H. unfold data_subsample. now rewrite H. Qed.

Lemma data_subsample_missing dir n w :
  fs w !! dir = None -> data_subsample dir n w = (Ok tt, w).
Proof. intros H. unfold data_subsample. now rewrite H. Qed.

(** The base of a constructed dataset has one record per file listed in
    its directory. *)
Lemma init_ok_len (ext : Externals) dir ann cap bb mk cp w self w' :
  __init__ ext dir ann cap bb mk cp w = (Ok self, w') ->
  exists wk, fs w !! dir = Some wk
             /\ DirDataset_len (base self) = Z.of_nat (length (top_files wk))
             /\ fs w' = fs w.
Proof.
  rewrite init_unfold.
  destruct (DirDataset_init dir "image" w) as [[b|e] w1] eqn:Hbase; [|discriminate].
  destruct (DirDataset_init_ok _ _ _ _ _ Hbase) as (wk & Hwk & Hlen & _ & Hfs & _).
  unfold init_after_base. intros H. exists wk. split; [exact Hwk|].
  destruct (mk && negb bb); [discriminate|].
  destruct (COCO_load ext ann); [|discriminate].
  destruct cp; [destruct (COCO_load ext cap); [|discriminate]|];
    injection H as <- <-; cbn; now split.
Qed.

(** ** Bootstrap over directories that exist *)

Lemma path_join_inj (a x y : string) : path_join a x = path_join a y -> x = y.
Proof.
  unfold path_join. induction a as [|c a IH]; cbn.
  - intros H. injection H as H. exact H.
  - intros H. injection H as H. now apply IH.
Qed.

Section Bootstrap.
Context (ext : Externals).

Lemma fetch_missing_present data_dir zip_name w wk :
  fs w !! data_dir = Some wk -> fetch_missing ext data_dir zip_name w = (Ok tt, w).
Proof. intros H. unfold fetch_missing. now rewrite H. Qed.

Lemma fetch_missing_keeps data_dir zip_name w w' other wk :
  fetch_missing ext data_dir zip_name w = (Ok tt, w') ->
  fs w !! other = Some wk -> fs w' !! other = Some wk.
Proof.
  unfold fetch_missing. intros H Ho.
  destruct (fs w !! data_dir) as [wk0|] eqn:E.
  - now injection H as <-.
  - destruct (unpack ext zip_name) as [wk1|]; [|discriminate].
    injection H as <-. cbn [fs set_fs].
    rewrite lookup_insert_ne; [exact Ho|]. intros ->. congruence.
Qed.

(** When both split directories exist, each dataset that [load_data]
    returns has as many records as [data_subsample] kept files in its
    directory. *)
Lemma load_data_existing root_dir n bb mk cp w wkt wke train_ds eval_ds w' :
  fs w !! path_join (load_root ext root_dir) "train2017" = Some wkt ->
  fs w !! path_join (load_root ext root_dir) "val2017" = Some wke ->
  load_data ext root_dir n bb mk cp w = (Ok (train_ds, eval_ds), w') ->
  DirDataset_len (base train_ds)
    = Z.min (Z.max 0 n) (Z.of_nat (length (top_files wkt)))
  /\ DirDataset_len (base eval_ds)
     = Z.min (Z.max 0 n) (Z.of_nat (length (top_files wke))).
Proof.
  intros Ht He H. unfold load_data in H. fold (load_root ext root_dir) in H.
  set (root := load_root ext root_dir) in *.
  set (train := path_join root "train2017") in *.
  set (eval := path_join root "val2017") in *.
  set (annot := path_join root "annotations") in *.
  assert (Hne : train <> eval).
  { intros E. apply path_join_inj in E. discriminate. }
  rewrite (bind_ok _ _ _ _ _ (data_subsample_present train n w wkt Ht)) in H.
  set (w1 := set_fs _ w) in H.
  assert (He1 : fs w1 !! eval = Some wke).
  { subst w1. cbn [fs set_fs]. now rewrite lookup_insert_ne. }
  rewrite (bind_ok _ _ _ _ _ (data_subsample_present eval n w1 wke He1)) in H.
  set (w2 := set_fs _ w1) in H.
  set (wkt' := snd (subsample_walk n wkt 0)) in *.
  set (wke' := snd (subsample_walk n wke 0)) in *.
  assert (Ht2 : fs w2 !! train = Some wkt').
  { subst w2 w1. cbn [fs set_fs].
    rewrite lookup_insert_ne by congruence. apply lookup_insert_eq. }
  assert (He2 : fs w2 !! eval = Some wke').
  { subst w2. cbn [fs set_fs]. apply lookup_insert_eq. }
  cbn [for_each fst snd] in H.
  unfold bind at 1 in H. unfold bind at 1 in H.
  rewrite (fetch_missing_present train _ w2 wkt' Ht2) in H.
  unfold bind at 1 in H.
  rewrite (fetch_missing_present eval _ w2 wke' He2) in H.
  unfold bind at 1 in H.
  destruct (fetch_missing ext annot "annotations_trainval2017.zip" w2)
    as [[[]|e] w3] eqn:Ha; [|discriminate].
  pose proof (fetch_missing_keeps _ _ _ _ _ _ Ha Ht2) as Ht3.
  pose proof (fetch_missing_keeps _ _ _ _ _ _ Ha He2) as He3.
  unfold ret at 1 in H. unfold bind at 1 in H.
  destruct (__init__ ext train _ _ bb mk cp w3) as [[tr|e] w4] eqn:Hit; [|discriminate].
  unfold bind at 1 in H.
  destruct (__init__ ext eval _ _ bb mk cp w4) as [[ev|e] w5] eqn:Hie; [|discriminate].
  unfold ret in H. injection H as <- <- <-.
  destruct (init_ok_len _ _ _ _ _ _ _ _ _ _ Hit) as (k1 & Hk1 & Hl1 & Hfs1).
  destruct (init_ok_len _ _ _ _ _ _ _ _ _ _ Hie) as (k2 & Hk2 & Hl2 & _).
  rewrite Ht3 in Hk1. injection Hk1 as <-.
  rewrite Hfs1, He3 in Hk2. injection Hk2 as <-.
  destruct (subsample_walk_spec n wkt 0) as (_ & Htop1 & _).
  destruct (subsample_walk_spec n wke 0) as (_ & Htop2 & _).
  rewrite Z.sub_0_r in Htop1, Htop2.
  subst wkt' wke'. rewrite Hl1, Hl2, Htop1, Htop2.
  split; apply take_count.
Qed.

End Bootstrap.

(** ** Further facts about a fetched sample *)

Section Sample.
Context (ext : Externals) (self : MSCOCODataset).

Lemma fetch_base h i r :
  fetch ext self h i = Some r ->
  exists l0 d0 path image_id,
    0 <= i /\ data (base self) !! Z.to_nat i = Some l0 /\ h !! l0 = Some d0
    /\ d0 !! "image" = Some (VStr path) /\ stem_id ext path = Some image_id
    /\ r = sample_record self image_id d0.
Proof.
  unfold fetch. destruct (Z.ltb_spec i 0); [discriminate|].
  destruct (data (base self) !! Z.to_nat i) as [l0|] eqn:El; [|discriminate].
  destruct (h !! l0) as [d0|] eqn:Ed; [|discriminate].
  destruct (d0 !! "image") as [[| |path| | |]|] eqn:E; try discriminate.
  destruct (stem_id ext path) as [image_id|] eqn:E'; [|discriminate].
  intros [= <-]. exists l0, d0, path, image_id.
  split; [assumption|]. split; [reflexivity|]. split; [exact Ed|].
  split; [exact E|]. split; [exact E' | reflexivity].
Qed.

(** Keys that [_get_single_item] does not write keep the base value. *)
Lemma sample_other_key image_id (d : gmap string value) k :
  k <> "image_id" -> k <> "bbox" -> k <> "mask" -> k <> "caption" ->
  sample_record self image_id d !! k = d !! k.
Proof.
  intros H1 H2 H3 H4.
  unfold sample_record, with_captions, with_instances, with_masks.
  destruct (captions self), (include_bboxes self), (include_masks self);
    rewrite ?lookup_insert; repeat case_decide; congruence.
Qed.

Lemma sample_no_bbox image_id (d : gmap string value) :
  include_bboxes self = false ->
  sample_record self image_id d !! "bbox" = d !! "bbox"
  /\ sample_record self image_id d !! "mask" = d !! "mask".
Proof.
  intros H. unfold sample_record, with_captions. rewrite H.
  destruct (captions self);
    rewrite ?lookup_insert; repeat case_decide; try discriminate; now split.
Qed.

Lemma sample_no_mask image_id (d : gmap string value) :
  include_masks self = false ->
  sample_record self image_id d !! "mask" = d !! "mask".
Proof.
  intros H. unfold sample_record, with_captions, with_instances, with_masks.
  rewrite H.
  destruct (captions self), (include_bboxes self);
    rewrite ?lookup_insert; repeat case_decide; try discriminate; reflexivity.
Qed.

Lemma sample_no_caption image_id (d : gmap string value) :
  captions self = None ->
  sample_record self image_id d !! "caption" = d !! "caption".
Proof.
  intros H. unfold sample_record, with_instances, with_masks. rewrite H.
  destruct (include_bboxes self), (include_masks self);
    rewrite ?lookup_insert; repeat case_decide; try discriminate; reflexivity.
Qed.

End Sample.

Lemma coco_index_caption_contract (anns : list annotation) :
  NoDup (map ann_id anns) -> caption_index_of (coco_index anns) anns.
Proof.
  intros Hnd. split; [reflexivity|]. intros image_id.
  cbn [getAnnIds coco_index].
  rewrite load_by_ids; [|exact Hnd|].
  - apply List.filter_ext. intros a. apply andb_true_r.
  - intros a Ha. now apply List.filter_In in Ha.
Qed.

(** ** More on the retry loop *)

Section Passes.
Context (ext : Externals) (self : MSCOCODataset).

Lemma get_single_item_bad_stem i w l0 d0 path :
  0 <= i ->
  data (base self) !! Z.to_nat i = Some l0 ->
  heap w !! l0 = Some d0 ->
  d0 !! "image" = Some (VStr path) ->
  stem_id ext path = None ->
  _get_single_item ext self (IdxInt i) w
  = (Err (ValueError "invalid literal for int() with base 10"),
     upd (next_loc w) d0 w).
Proof.
  intros Hi Hl Hd Himg Hstem.
  unfold _get_single_item, DirDataset_getitem.
  destruct (Z.ltb_spec i 0); [lia|]. rewrite Hl.
  rewrite (bind_ok _ _ w l0 w eq_refl).
  rewrite (bind_ok _ _ _ _ _ (deepcopy_ok _ _ _ Hd)).
  rewrite (bind_ok _ _ _ _ _ (getfield_ok _ _ _ _ _ (upd_lookup _ _ _) Himg)).
  apply bind_err. unfold parse_image_id. unfold stem_id in Hstem.
  now rewrite Hstem.
Qed.

(** A pass on a string key that does not raise changes the generator only. *)
Lemma loop_body_str_world k w l b next w1 :
  loop_body ext self (IdxStr k) w = (Ok (l, b, next), w1) ->
  w1 = set_rng (S (rng w)) w.
Proof.
  intros H. unfold loop_body in H. unfold bind at 1 in H.
  rewrite get_single_item_str in H.
  destruct (named (base self) !! k) as [l0|]; [|discriminate].
  unfold bind at 1 in H.
  pose proof (missing_world (include_bboxes self) l0 "bbox" w) as E1.
  destruct (missing (include_bboxes self) l0 "bbox" w) as [[b1|e1] w2];
    cbn [snd] in E1; subst w2; [|discriminate].
  unfold bind at 1 in H.
  pose proof (missing_world (include_masks self) l0 "mask" w) as E2.
  destruct (missing (include_masks self) l0 "mask" w) as [[b2|e2] w2];
    cbn [snd] in E2; subst w2; [|discriminate].
  unfold bind at 1 in H.
  set (flag := match captions self with Some _ => true | None => false end) in H.
  pose proof (missing_world flag l0 "caption" w) as E3.
  destruct (missing flag l0 "caption" w) as [[b3|e3] w2];
    cbn [snd] in E3; subst w2; [|discriminate].
  unfold bind, randint, ret in H.
  destruct (Z.leb (DirDataset_len (base self)) 0); [discriminate|].
  now injection H as _ _ _ <-.
Qed.

(** A pass that does not raise uses exactly one word of the generator and
    touches neither the directories nor the list of opened files. *)
Lemma loop_body_ok_world idx w l b next w1 :
  loop_body ext self idx w = (Ok (l, b, next), w1) ->
  rng w1 = S (rng w) /\ opened w1 = opened w /\ fs w1 = fs w
  /\ exists j, next = IdxInt j.
Proof.
  intros H. destruct idx as [i|k].
  - destruct (loop_body_inv ext self _ _ _ _ _ _ H) as (r & _ & _ & _ & -> & ->).
    repeat split. now eexists.
  - pose proof (loop_body_str_world _ _ _ _ _ _ H) as ->.
    destruct (loop_body_str_inv ext self _ _ _ _ _ _ H) as (_ & _ & Hj).
    now repeat split.
Qed.

Lemma getitem_ok_world fuel :
  forall idx w l w',
    __getitem__ ext fuel self idx w = Some (Ok l, w') ->
    (rng w < rng w' <= rng w + fuel)%nat
    /\ opened w' = opened w /\ fs w' = fs w.
Proof.
  induction fuel as [|fuel IH]; intros idx w l w' H; [discriminate|].
  cbn [__getitem__] in H.
  destruct (loop_body ext self idx w) as [[[[l1 b] next]|e] w1] eqn:Hb;
    [|discriminate].
  destruct (loop_body_ok_world _ _ _ _ _ _ Hb) as (Hr & Ho & Hf & _).
  destruct b.
  - injection H as <- <-. split; [lia|]. now split.
  - destruct (IH _ _ _ _ H) as (Hr' & Ho' & Hf').
    split; [lia|]. split; congruence.
Qed.

Hypothesis Hvalid : valid_config self.

Lemma nth_index_next i w r k :
  nth_index ext self (drawn ext self w) (after_pass r w) k
  = nth_index ext self i w (S k).
Proof.
  destruct k as [|k]; cbn [nth_index]; unfold drawn.
  - now rewrite Nat.add_0_r.
  - cbn [after_pass rng set_rng]. do 2 f_equal. lia.
Qed.

(** With every position fetchable, the loop returns the first complete
    sample among the indices it visits, after one pass per index visited. *)
Lemma getitem_first_complete k :
  forall i w r,
    all_fetch ext self (heap w) ->
    0 <= i < DirDataset_len (base self) ->
    (forall j r', (j < k)%nat ->
                  fetch ext self (heap w) (nth_index ext self i w j) = Some r' ->
                  complete self r' = false) ->
    fetch ext self (heap w) (nth_index ext self i w k) = Some r ->
    complete self r = true ->
    forall fuel, (k < fuel)%nat ->
      exists l w',
        __getitem__ ext fuel self (IdxInt i) w = Some (Ok l, w')
        /\ heap w' !! l = Some r
        /\ rng w' = (rng w + k + 1)%nat.
Proof.
  induction k as [|k IH]; intros i w r Hall Hi Hbefore Hf Hc fuel Hfuel;
    (destruct fuel as [|fuel]; [lia|]).
  - cbn [nth_index] in Hf.
    rewrite (getitem_step ext self Hvalid fuel i w r Hf), Hc.
    eexists _, _. split; [reflexivity|]. split; [apply after_pass_lookup|].
    cbn [after_pass rng set_rng upd set_heap]. lia.
  - destruct (Hall i Hi) as [r0 Hr0].
    assert (Hc0 : complete self r0 = false).
    { apply (Hbefore O r0); [lia | exact Hr0]. }
    rewrite (getitem_step ext self Hvalid fuel i w r0 Hr0), Hc0.
    assert (Hlen : 0 < DirDataset_len (base self)) by lia.
    destruct (IH (drawn ext self w) (after_pass r0 w) r) with (fuel := fuel)
      as (l & w' & Hrun & Hl & Hrng).
    + now apply all_fetch_after_pass.
    + now apply drawn_in_range.
    + intros j r' Hj Hfj. rewrite (nth_index_next i) in Hfj.
      apply (Hbefore (S j) r'); [lia|].
      eapply fetch_after_pass_inv; eauto.
    + rewrite (nth_index_next i). now apply fetch_after_pass.
    + exact Hc.
    + lia.
    + exists l, w'. split; [exact Hrun|]. split; [exact Hl|].
      rewrite Hrng. cbn [after_pass rng set_rng upd set_heap]. lia.
Qed.

End Passes.

(** ** Subsampling as a cut of the walk *)

Lemma subsample_walk_prune (n : Z) (wk : walk) :
  forall c, snd (subsample_walk n wk c) = prune (Z.to_nat (n - c)) wk.
Proof.
  induction wk as [|[dirpath files] rest IH]; intros c; [reflexivity|].
  cbn [subsample_walk prune]. rewrite subsample_files_spec.
  set (k := Z.to_nat (n - c)).
  specialize (IH (c + Z.of_nat (length (take k files)))).
  destruct (subsample_walk n rest (c + Z.of_nat (length (take k files))))
    as [c2 rest'].
  cbn [snd] in *. rewrite IH. do 2 f_equal.
  rewrite length_take. subst k. lia.
Qed.

Lemma prune_prune (m n : nat) (wk : walk) :
  prune m (prune n wk) = prune (Nat.min n m) wk.
Proof.
  revert m n. induction wk as [|[dirpath files] rest IH]; intros m n; [reflexivity|].
  cbn [prune]. rewrite take_take, IH, length_take.
  f_equal; [f_equal; f_equal; lia|]. f_equal. lia.
Qed.



Lemma top_files_prune (k : nat) (wk : walk) :
  top_files (prune k wk) = take k (top_files wk).
Proof.
  destruct wk as [|[dirpath files] rest]; cbn [prune top_files].
  - now rewrite take_nil.
  - now rewrite <- (fmap_take (path_join dirpath)).
Qed.

Lemma data_subsample_run dir n w :
  data_subsample dir n w
  = (Ok tt, match fs w !! dir with
            | Some wk => set_fs (<[dir := prune (Z.to_nat n) wk]> (fs w)) w
            | None => w
            end).
Proof.
  unfold data_subsample. destruct (fs w !! dir) as [wk|]; [|reflexivity].
  now rewrite subsample_walk_prune, Z.sub_0_r.
Qed.

(** ** The stages of the bootstrap *)

Section Stages.
Context (ext : Externals).

Lemma load_data_stages root_dir n bb mk cp w :
  load_data ext root_dir n bb mk cp w
  = let root := load_root ext root_dir in
    let train := path_join root "train2017" in
    let eval := path_join root "val2017" in
    let annot := path_join root "annotations" in
    let w1 := snd (data_subsample train n w) in
    let w2 := snd (data_subsample eval n w1) in
    match fetch_missing ext train "train2017.zip" w2 with
    | (Err e, w3) => (Err e, w3)
    | (Ok _, w3) =>
        match fetch_missing ext eval "val2017.zip" w3 with
        | (Err e, w4) => (Err e, w4)
        | (Ok _, w4) =>
            match fetch_missing ext annot "annotations_trainval2017.zip" w4 with
            | (Err e, w5) => (Err e, w5)
            | (Ok _, w5) =>
                match __init__ ext train (path_join annot "instances_train2017.json")
                        (path_join annot "captions_train2017.json") bb mk cp w5 with
                | (Err e, w6) => (Err e, w6)
                | (Ok train_ds, w6) =>
                    match __init__ ext eval (path_join annot "instances_val2017.json")
                            (path_join annot "captions_val2017.json") bb mk cp w6 with
                    | (Err e, w7) => (Err e, w7)
                    | (Ok eval_ds, w7) => (Ok (train_ds, eval_ds), w7)
                    end
                end
            end
        end
    end.
Proof.
  unfold load_data. fold (load_root ext root_dir). cbv zeta.
  set (root := load_root ext root_dir).
  unfold bind at 1. rewrite data_subsample_run. cbn [snd].
  unfold bind at 1. rewrite data_subsample_run. cbn [snd].
  cbn [for_each fst snd]. unfold bind at 1. unfold bind at 1.
  destruct (fetch_missing ext (path_join root "train2017") "train2017.zip" _)
    as [[[]|e] w3]; [|reflexivity].
  unfold bind at 1.
  destruct (fetch_missing ext (path_join root "val2017") "val2017.zip" w3)
    as [[[]|e] w4]; [|reflexivity].
  unfold bind at 1.
  destruct (fetch_missing ext (path_join root "annotations")
              "annotations_trainval2017.zip" w4) as [[[]|e] w5]; [|reflexivity].
  unfold ret at 1. unfold bind at 1.
  destruct (__init__ ext (path_join root "train2017") _ _ bb mk cp w5)
    as [[tr|e] w6]; [|reflexivity].
  unfold bind at 1.
  now destruct (__init__ ext (path_join root "val2017") _ _ bb mk cp w6)
    as [[ev|e] w7].
Qed.

Lemma split_dirs_differ root :
  path_join root "train2017" <> path_join root "val2017"
  /\ path_join root "train2017" <> path_join root "annotations"
  /\ path_join root "val2017" <> path_join root "annotations".
Proof.
  repeat split; intros E; apply path_join_inj in E; discriminate.
Qed.

Lemma fetch_missing_absent data_dir zip_name w :
  fs w !! data_dir = None ->
  fetch_missing ext data_dir zip_name w
  = match unpack ext zip_name with
    | Some wk => (Ok tt, set_fs (<[data_dir := wk]> (fs w)) w)
    | None => (Err (LoadError zip_name), w)
    end.
Proof. intros H. unfold fetch_missing. now rewrite H. Qed.

Lemma fetch_missing_world data_dir zip_name w u w' :
  fetch_missing ext data_dir zip_name w = (Ok u, w') ->
  heap w' = heap w /\ opened w' = opened w /\ rng w' = rng w.
Proof.
  unfold fetch_missing. destruct (fs w !! data_dir).
  - now intros [= _ <-].
  - destruct (unpack ext zip_name); [|discriminate]. now intros [= _ <-].
Qed.

End Stages.

Lemma data_subsample_lookup dir n w other :
  fs (snd (data_subsample dir n w)) !! other
  = if decide (other = dir) then prune (Z.to_nat n) <$> (fs w !! dir)
    else fs w !! other.
Proof.
  rewrite data_subsample_run. cbn [snd].
  destruct (fs w !! dir) as [wk|] eqn:E; cbn [fs set_fs].
  - case_decide as Hd.
    + subst other. now rewrite lookup_insert_eq.
    + now rewrite lookup_insert_ne.
  - case_decide as Hd; [now subst other; rewrite E | reflexivity].
Qed.

Lemma data_subsample_world dir n w :
  heap (snd (data_subsample dir n w)) = heap w
  /\ opened (snd (data_subsample dir n w)) = opened w
  /\ rng (snd (data_subsample dir n w)) = rng w.
Proof.
  rewrite data_subsample_run. cbn [snd]. now destruct (fs w !! dir).
Qed.

Section Bootstrap_dirs.
Context (ext : Externals).

(** The two split directories after both calls of [data_subsample]. *)
Lemma subsampled_dirs root n w :
  let train := path_join root "train2017" in
  let eval := path_join root "val2017" in
  let w2 := snd (data_subsample eval n (snd (data_subsample train n w))) in
  fs w2 !! train = prune (Z.to_nat n) <$> (fs w !! train)
  /\ fs w2 !! eval = prune (Z.to_nat n) <$> (fs w !! eval)
  /\ heap w2 = heap w /\ opened w2 = opened w /\ rng w2 = rng w.
Proof.
  cbv zeta. destruct (split_dirs_differ root) as (Hte & _ & _).
  set (train := path_join root "train2017") in *.
  set (eval := path_join root "val2017") in *.
  split; [|split].
  - rewrite (data_subsample_lookup eval n _ train).
    case_decide; [congruence|].
    rewrite (data_subsample_lookup train n w train). now case_decide.
  - rewrite (data_subsample_lookup eval n _ eval).
    case_decide; [|congruence].
    rewrite (data_subsample_lookup train n w eval). case_decide; [congruence|].
    reflexivity.
  - destruct (data_subsample_world eval n (snd (data_subsample train n w)))
      as (H1 & H2 & H3).
    destruct (data_subsample_world train n w) as (H4 & H5 & H6).
    repeat split; congruence.
Qed.

(** The bootstrap over split directories that exist. *)
Lemma load_data_with_dirs root_dir n bb mk cp w (wkt wke : walk)
    train_ds eval_ds w' :
  fs w !! path_join (load_root ext root_dir) "train2017" = Some wkt ->
  fs w !! path_join (load_root ext root_dir) "val2017" = Some wke ->
  load_data ext root_dir n bb mk cp w = (Ok (train_ds, eval_ds), w') ->
  DirDataset_len (base train_ds)
    = Z.min (Z.max 0 n) (Z.of_nat (length (top_files wkt)))
  /\ DirDataset_len (base eval_ds)
     = Z.min (Z.max 0 n) (Z.of_nat (length (top_files wke)))
  /\ fs w' !! path_join (load_root ext root_dir) "train2017"
     = Some (prune (Z.to_nat n) wkt)
  /\ fs w' !! path_join (load_root ext root_dir) "val2017"
     = Some (prune (Z.to_nat n) wke).
Proof.
  intros Ht He H. rewrite load_data_stages in H. cbv zeta in H.
  destruct (subsampled_dirs (load_root ext root_dir) n w) as (Ht2 & He2 & _).
  cbv zeta in Ht2, He2. rewrite Ht in Ht2. rewrite He in He2.
  cbn [fmap option_fmap option_map] in Ht2, He2.
  set (root := load_root ext root_dir) in *.
  set (train := path_join root "train2017") in *.
  set (eval := path_join root "val2017") in *.
  set (w2 := snd (data_subsample eval n (snd (data_subsample train n w)))) in *.
  rewrite (fetch_missing_present ext train _ w2 _ Ht2) in H.
  rewrite (fetch_missing_present ext eval _ w2 _ He2) in H.
  destruct (fetch_missing ext (path_join root "annotations") _ w2)
    as [[[]|e] w5] eqn:Ha; [|discriminate].
  pose proof (fetch_missing_keeps ext _ _ _ _ _ _ Ha Ht2) as Ht5.
  pose proof (fetch_missing_keeps ext _ _ _ _ _ _ Ha He2) as He5.
  destruct (__init__ ext train _ _ bb mk cp w5) as [[tr|e] w6] eqn:Hit; [|discriminate].
  destruct (__init__ ext eval _ _ bb mk cp w6) as [[ev|e] w7] eqn:Hie; [|discriminate].
  injection H as <- <- <-.
  destruct (init_ok_len _ _ _ _ _ _ _ _ _ _ Hit) as (k1 & Hk1 & Hl1 & Hfs1).
  destruct (init_ok_len _ _ _ _ _ _ _ _ _ _ Hie) as (k2 & Hk2 & Hl2 & Hfs2).
  rewrite Ht5 in Hk1. injection Hk1 as <-.
  rewrite Hfs1, He5 in Hk2. injection Hk2 as <-.
  rewrite Hl1, Hl2, !top_files_prune, !take_count.
  rewrite Hfs2, Hfs1. now repeat split.
Qed.

End Bootstrap_dirs.

(** ** Completeness as non-empty lists, errors of the loop, and the draw *)

Section Outcome.
Context (ext : Externals) (self : MSCOCODataset).
Hypothesis Hvalid : valid_config self.





End Outcome.

Lemma after_pass_explicit r w :
  after_pass r w
  = {| heap := <[fresh (dom (heap w)) := r]> (heap w); rng := S (rng w);
       opened := opened w; fs := fs w |}.
Proof. reflexivity. Qed.




(** * The claims *)

(** C1: the sample that [__getitem__] returns for an integer index is
    complete for the configuration the dataset was built with: a requested
    [bbox], [mask] or [caption] field holds a non-empty list. *)
Theorem C1_returned_sample_complete (ext : Externals)
    (image_dir annotation_file caption_file : string)
    (bboxes masks capts : bool) (w0 w1 : world) (self : MSCOCODataset)
    (fuel : nat) (i : Z) (w w' : world) (l : loc) :
  __init__ ext image_dir annotation_file caption_file bboxes masks capts w0
    = (Ok self, w1) ->
  __getitem__ ext fuel self (IdxInt i) w = Some (Ok l, w') ->
  exists d, heap w' !! l = Some d
            /\ (bboxes = true -> nonempty_list d "bbox")
            /\ (masks = true -> nonempty_list d "mask")
            /\ (capts = true -> nonempty_list d "caption").
Proof.
  intros Hinit Hget.
  destruct (init_ok_fields _ _ _ _ _ _ _ _ _ _ Hinit) as (Hb & Hm & Hc & Hvalid).
  destruct (getitem_int_ok ext self fuel i w l w' Hget)
    as (j & wj & r & Hf & Hcomplete & -> & -> & _).
  exists r. split; [apply after_pass_lookup|].
  destruct (fetch_fields ext self Hvalid _ _ _ Hf) as (Fb & Fm & Fc).
  unfold complete in Hcomplete.
  apply andb_prop in Hcomplete. destruct Hcomplete as [Hbm Hcap].
  apply andb_prop in Hbm. destruct Hbm as [Hbox Hmask].
  split; [|split].
  - intros ->. rewrite Hb in Hbox. destruct (Fb Hb) as [items Hi].
    exists items. split; [exact Hi|].
    unfold field_true in Hbox. rewrite Hi in Hbox.
    now apply truthy_list_nonempty.
  - intros ->. rewrite Hm in Hmask. destruct (Fm Hm) as [items Hi].
    exists items. split; [exact Hi|].
    unfold field_true in Hmask. rewrite Hi in Hmask.
    now apply truthy_list_nonempty.
  - intros Hcp. apply Hc in Hcp. destruct (Fc Hcp) as [items Hi].
    destruct Hcp as [c Hcs]. rewrite Hcs in Hcap.
    exists items. split; [exact Hi|].
    unfold field_true in Hcap. rewrite Hi in Hcap.
    now apply truthy_list_nonempty.
Qed.

Lemma C1_witness :
  exists d, heap (world_of demo_access) !! 4%nat = Some d
            /\ (true = true -> nonempty_list d "bbox")
            /\ (true = true -> nonempty_list d "mask")
            /\ (true = true -> nonempty_list d "caption").
Proof.
  apply (C1_returned_sample_complete demo_ext demo_train_dir
           "/data/MSCOCO2017/annotations/instances_train2017.json"
           "/data/MSCOCO2017/annotations/captions_train2017.json"
           true true true demo_world demo_full_world demo_full
           5 0 demo_full_world (world_of demo_access) 4%nat);
    vm_compute; reflexivity.
Defined.

(** C8: round trip.  In every sample returned for an integer index, the
    integer parsed from the file-name stem of the [image] path is the value
    of the [image_id] field. *)
Theorem C8_image_id_round_trip (ext : Externals) (self : MSCOCODataset)
    (fuel : nat) (i : Z) (w w' : world) (l : loc) :
  __getitem__ ext fuel self (IdxInt i) w = Some (Ok l, w') ->
  exists d path image_id,
    heap w' !! l = Some d
    /\ d !! "image" = Some (VStr path)
    /\ d !! "image_id" = Some (VInt image_id)
    /\ py_int ext (fst (splitext ext (basename ext path))) = Some image_id.
Proof.
  intros Hget.
  destruct (getitem_int_ok ext self fuel i w l w' Hget)
    as (j & wj & r & Hf & _ & -> & -> & _).
  destruct (fetch_record ext self _ _ _ Hf) as (d0 & path & image_id & Hi & Hs & ->).
  exists (sample_record self image_id d0), path, image_id.
  split; [apply after_pass_lookup|]. split; [|split].
  - now rewrite sample_image.
  - apply sample_image_id.
  - exact Hs.
Qed.

Lemma C8_witness :
  exists d path image_id,
    heap (world_of demo_access) !! 4%nat = Some d
    /\ d !! "image" = Some (VStr path)
    /\ d !! "image_id" = Some (VInt image_id)
    /\ ascii_int (fst (posix_splitext (posix_basename path))) = Some image_id.
Proof.
  apply (C8_image_id_round_trip demo_ext demo_full 5 0 demo_full_world
           (world_of demo_access) 4%nat).
  vm_compute. reflexivity.
Defined.

(** C4: for an integer index fetched with [include_bboxes] set, [bbox] is
    the list of the tuples (box entries followed by the category id) of the
    annotations that the instance index gives for the sample's image id,
    non-crowd only, in their order; with [include_masks] also set, [mask] is
    the list of their masks, in the same order and of the same length; when
    no annotation is found the lists are present and empty. *)
Theorem C4_instance_fields (ext : Externals) (self : MSCOCODataset)
    (i : Z) (w w' : world) (l : loc) :
  include_bboxes self = true ->
  _get_single_item ext self (IdxInt i) w = (Ok l, w') ->
  exists d image_id anns,
    heap w' !! l = Some d
    /\ d !! "image_id" = Some (VInt image_id)
    /\ anns = instance_anns (instances self) image_id
    /\ (forall source, index_of (instances self) source ->
          anns = List.filter (non_crowd_of image_id) source)
    /\ d !! "bbox" = Some (VList (map bbox_tuple anns))
    /\ (forall a x y bw bh, ann_bbox a = [x; y; bw; bh] ->
          bbox_tuple a = VTuple [x; y; bw; bh; VInt (ann_category_id a)])
    /\ (include_masks self = true ->
          d !! "mask" = Some (VList (map (mask_value self) anns))
          /\ length (map (mask_value self) anns) = length (map bbox_tuple anns))
    /\ (anns = [] ->
          d !! "bbox" = Some (VList [])
          /\ (include_masks self = true -> d !! "mask" = Some (VList []))).
Proof.
  intros Hb Hget.
  destruct (get_single_item_inv ext self i w l w' Hget) as (r & Hf & -> & ->).
  destruct (fetch_record ext self _ _ _ Hf) as (d0 & path & image_id & _ & _ & ->).
  exists (sample_record self image_id d0), image_id,
         (instance_anns (instances self) image_id).
  split; [apply upd_lookup|]. split; [apply sample_image_id|].
  split; [reflexivity|]. split; [|split; [|split; [|split]]].
  - intros source [Hnil Hq]. unfold instance_anns.
    destruct (getAnnIds (instances self) image_id (Some false)) as [|x ids] eqn:E.
    + cbn [nonempty]. rewrite <- Hq, E. now rewrite Hnil.
    + cbn [nonempty]. rewrite <- E. apply Hq.
  - now apply sample_bbox.
  - intros a x y bw bh E. unfold bbox_tuple. now rewrite E.
  - intros Hm. split; [now apply sample_mask|]. now rewrite !length_map.
  - intros E. split.
    + rewrite (sample_bbox self image_id d0 Hb), E. reflexivity.
    + intros Hm. rewrite (sample_mask self image_id d0 Hb Hm), E. reflexivity.
Qed.

Lemma C4_witness :
  exists d image_id anns,
    heap (snd (_get_single_item demo_ext demo_full (IdxInt 1) demo_full_world))
      !! 3%nat = Some d
    /\ d !! "image_id" = Some (VInt image_id)
    /\ anns = instance_anns (instances demo_full) image_id
    /\ (forall source, index_of (instances demo_full) source ->
          anns = List.filter (non_crowd_of image_id) source)
    /\ d !! "bbox" = Some (VList (map bbox_tuple anns))
    /\ (forall a x y bw bh, ann_bbox a = [x; y; bw; bh] ->
          bbox_tuple a = VTuple [x; y; bw; bh; VInt (ann_category_id a)])
    /\ (include_masks demo_full = true ->
          d !! "mask" = Some (VList (map (mask_value demo_full) anns))
          /\ length (map (mask_value demo_full) anns) = length (map bbox_tuple anns))
    /\ (anns = [] ->
          d !! "bbox" = Some (VList [])
          /\ (include_masks demo_full = true -> d !! "mask" = Some (VList []))).
Proof.
  apply (C4_instance_fields demo_ext demo_full 1 demo_full_world
           (snd (_get_single_item demo_ext demo_full (IdxInt 1) demo_full_world))
           3%nat);
    vm_compute; reflexivity.
Defined.

(** C9: when the file-name stem of the base record at an integer index is
    not an integer, the access raises the parse error on that pass, with no
    new index drawn; when the stem is an integer, the parse and the fetch of
    that record succeed. *)
Theorem C9_parse_error_not_retried (ext : Externals) (self : MSCOCODataset)
    (i : Z) (w : world) (l0 : loc) (d0 : gmap string value) (path : string) :
  0 <= i ->
  data (base self) !! Z.to_nat i = Some l0 ->
  heap w !! l0 = Some d0 ->
  d0 !! "image" = Some (VStr path) ->
  (stem_id ext path = None ->
     forall fuel,
       exists w',
         __getitem__ ext (S fuel) self (IdxInt i) w
         = Some (Err (ValueError "invalid literal for int() with base 10"), w')
         /\ rng w' = rng w)
  /\ (forall image_id, stem_id ext path = Some image_id ->
        parse_image_id ext (VStr path) w = (Ok image_id, w)
        /\ _get_single_item ext self (IdxInt i) w
           = (Ok (next_loc w), upd (next_loc w) (sample_record self image_id d0) w)).
Proof.
  intros Hi Hl Hd Himg. split.
  - intros Hstem fuel. exists (upd (next_loc w) d0 w). split; [|reflexivity].
    cbn [__getitem__].
    assert (Hrun : _get_single_item ext self (IdxInt i) w
                   = (Err (ValueError "invalid literal for int() with base 10"),
                      upd (next_loc w) d0 w)).
    { unfold _get_single_item, DirDataset_getitem.
      destruct (Z.ltb_spec i 0); [lia|]. rewrite Hl.
      rewrite (bind_ok _ _ w l0 w eq_refl).
      rewrite (bind_ok _ _ _ _ _ (deepcopy_ok _ _ _ Hd)).
      rewrite (bind_ok _ _ _ _ _ (getfield_ok _ _ _ _ _ (upd_lookup _ _ _) Himg)).
      apply bind_err. unfold parse_image_id. unfold stem_id in Hstem.
      now rewrite Hstem. }
    unfold loop_body. now rewrite (bind_err _ _ _ _ _ Hrun).
  - intros image_id Hstem. split.
    + unfold parse_image_id. unfold stem_id in Hstem. now rewrite Hstem.
    + apply get_single_item_fetch. unfold fetch.
      destruct (Z.ltb_spec i 0); [lia|]. now rewrite Hl, Hd, Himg, Hstem.
Qed.

Lemma C9_witness :
  exists w',
    __getitem__ demo_ext 1 misc_dataset (IdxInt 0) misc_dataset_world
    = Some (Err (ValueError "invalid literal for int() with base 10"), w')
    /\ rng w' = rng misc_dataset_world.
Proof.
  refine (proj1 (C9_parse_error_not_retried demo_ext misc_dataset 0
                   misc_dataset_world 0%nat
                   {[ "image" := VStr "/data/misc/readme.txt" ]}
                   "/data/misc/readme.txt" _ _ _ _) _ O);
    [lia | vm_compute; reflexivity ..].
Defined.




(** C2: with the default configuration ([include_bboxes] set) a string key
    does not get its record back.  [_get_single_item] returns the base
    record as it is, and [__getitem__] then reads its [bbox] field for the
    completeness test, which raises.  Evaluated on the key of image 632, a
    known key without annotations. *)
Theorem C2_string_key_raises :
  _get_single_item demo_ext keyed_dataset (IdxStr "000000000632") keyed_world
    = (Ok 0%nat, keyed_world)
  /\ heap keyed_world !! 0%nat
     = Some {[ "image" := VStr "/data/MSCOCO2017/train2017/000000000632.jpg" ]}
  /\ forall fuel,
       __getitem__ demo_ext (S fuel) keyed_dataset (IdxStr "000000000632") keyed_world
       = Some (Err (KeyError (VStr "bbox")), keyed_world).
Proof.
  split; [vm_compute; reflexivity|]. split; [vm_compute; reflexivity|].
  intros fuel. cbn [__getitem__].
  assert (E : loop_body demo_ext keyed_dataset (IdxStr "000000000632") keyed_world
              = (Err (KeyError (VStr "bbox")), keyed_world))
    by (vm_compute; reflexivity).
  now rewrite E.
Qed.




(** C6 as stated fails: with [include_captions] off the construction
    succeeds having opened the instance file only. *)
Lemma C6_counterexample :
  exists self w',
    demo_build true false false = (Ok self, w')
    /\ opened w' = ["/data/MSCOCO2017/annotations/instances_train2017.json"]
    /\ ~ In "/data/MSCOCO2017/annotations/captions_train2017.json" (opened w').
Proof.
  exists (built (demo_build true false false)), (snd (demo_build true false false)).
  split; [vm_compute; reflexivity|]. split; [vm_compute; reflexivity|].
  vm_compute. intros [H|[]]. discriminate.
Qed.

(** C6, as the code has it: once the base dataset is built and the flags
    pass the assertion, construction opens the instance-annotation file
    once; it opens the caption file, once and after it, only when
    [include_captions] is set; a file that fails to load makes construction
    fail with that load error, and otherwise construction succeeds. *)
Theorem C6_annotation_sources_opened (ext : Externals)
    (image_dir annotation_file caption_file : string)
    (bboxes masks capts : bool) (w w1 : world) (b : DirDataset) :
  DirDataset_init image_dir "image" w = (Ok b, w1) ->
  (masks = true -> bboxes = true) ->
  exists res w',
    __init__ ext image_dir annotation_file caption_file bboxes masks capts w
      = (res, w')
    /\ opened w'
       = (opened w ++ annotation_file ::
            (if capts
             then match COCO_load ext annotation_file with
                  | Some _ => [caption_file]
                  | None => []
                  end
             else []))%list
    /\ (COCO_load ext annotation_file = None ->
          res = Err (LoadError annotation_file))
    /\ (is_Some (COCO_load ext annotation_file) -> capts = true ->
          COCO_load ext caption_file = None ->
          res = Err (LoadError caption_file))
    /\ (is_Some (COCO_load ext annotation_file) ->
          (capts = true -> is_Some (COCO_load ext caption_file)) ->
          exists self, res = Ok self
                       /\ (is_Some (captions self) <-> capts = true)).
Proof.
  intros Hbase Hflags.
  destruct (DirDataset_init_ok _ _ _ _ _ Hbase) as (wk & _ & _ & Ho & _ & _).
  rewrite init_unfold, Hbase. unfold init_after_base.
  assert (E : masks && negb bboxes = false).
  { destruct masks; [now rewrite (Hflags eq_refl) | reflexivity]. }
  rewrite E. cbn [opened set_opened]. rewrite Ho.
  destruct (COCO_load ext annotation_file) as [inst|];
    [destruct capts; [destruct (COCO_load ext caption_file) as [c|]|]|].
  - eexists _, _. split; [reflexivity|]. cbn [opened set_opened].
    split; [now rewrite <- app_assoc|]. split; [discriminate|].
    split; [discriminate|]. intros _ _. eexists. split; [reflexivity|].
    cbn. split; [reflexivity | now eexists].
  - eexists _, _. split; [reflexivity|]. cbn [opened set_opened].
    split; [now rewrite <- app_assoc|]. split; [discriminate|].
    split; [reflexivity|]. intros _ H. destruct (H eq_refl) as [? ?]. discriminate.
  - eexists _, _. split; [reflexivity|]. cbn [opened set_opened].
    split; [reflexivity|]. split; [discriminate|].
    split; [discriminate|]. intros _ _. eexists. split; [reflexivity|].
    cbn. split; [intros [? ?]; discriminate | discriminate].
  - eexists _, _. split; [reflexivity|]. cbn [opened set_opened].
    split; [now destruct capts|]. split; [reflexivity|].
    split; [intros [? ?]; discriminate|]. intros [? ?]. discriminate.
Qed.

(** C7: with [include_masks] set and [include_bboxes] unset, construction
    fails before any annotation file is opened, with the assertion on the
    flags whenever the image directory exists; with flags that satisfy
    "masks implies bboxes", construction never fails with that assertion. *)
Theorem C7_mask_requires_bbox (ext : Externals)
    (image_dir annotation_file caption_file : string) (capts : bool) (w : world) :
  (exists e w',
     __init__ ext image_dir annotation_file caption_file false true capts w
       = (Err e, w')
     /\ opened w' = opened w
     /\ (is_Some (fs w !! image_dir) -> e = mask_without_bbox))
  /\ (forall bboxes masks,
        (masks = true -> bboxes = true) ->
        fst (__init__ ext image_dir annotation_file caption_file bboxes masks capts w)
        <> Err mask_without_bbox).
Proof.
  split.
  - rewrite init_unfold.
    destruct (DirDataset_init image_dir "image" w) as [[b|e] w1] eqn:Hbase.
    + destruct (DirDataset_init_ok _ _ _ _ _ Hbase) as (wk & _ & _ & Ho & _ & _).
      exists mask_without_bbox, w1. now repeat split.
    + destruct (DirDataset_init_err _ _ _ _ _ Hbase) as (Hfs & -> & ->).
      eexists _, w. split; [reflexivity|]. split; [reflexivity|].
      intros [wk Hwk]. rewrite Hfs in Hwk. discriminate.
  - intros bboxes masks Hflags. rewrite init_unfold.
    destruct (DirDataset_init image_dir "image" w) as [[b|e] w1] eqn:Hbase.
    + unfold init_after_base.
      assert (E : masks && negb bboxes = false).
      { destruct masks; [now rewrite (Hflags eq_refl) | reflexivity]. }
      rewrite E.
      destruct (COCO_load ext annotation_file); [|discriminate].
      destruct capts; [|discriminate].
      destruct (COCO_load ext caption_file); discriminate.
    + destruct (DirDataset_init_err _ _ _ _ _ Hbase) as (_ & -> & _).
      discriminate.
Qed.

Lemma C6_witness :
  exists res w',
    __init__ demo_ext demo_train_dir
      "/data/MSCOCO2017/annotations/instances_train2017.json"
      "/data/MSCOCO2017/annotations/captions_train2017.json"
      true false true demo_world = (res, w')
    /\ opened w'
       = (opened demo_world ++
            "/data/MSCOCO2017/annotations/instances_train2017.json" ::
            (if true
             then match COCO_load demo_ext
                          "/data/MSCOCO2017/annotations/instances_train2017.json" with
                  | Some _ => ["/data/MSCOCO2017/annotations/captions_train2017.json"]
                  | None => []
                  end
             else []))%list
    /\ (COCO_load demo_ext "/data/MSCOCO2017/annotations/instances_train2017.json" = None ->
          res = Err (LoadError "/data/MSCOCO2017/annotations/instances_train2017.json"))
    /\ (is_Some (COCO_load demo_ext "/data/MSCOCO2017/annotations/instances_train2017.json") ->
          true = true ->
          COCO_load demo_ext "/data/MSCOCO2017/annotations/captions_train2017.json" = None ->
          res = Err (LoadError "/data/MSCOCO2017/annotations/captions_train2017.json"))
    /\ (is_Some (COCO_load demo_ext "/data/MSCOCO2017/annotations/instances_train2017.json") ->
          (true = true ->
           is_Some (COCO_load demo_ext "/data/MSCOCO2017/annotations/captions_train2017.json")) ->
          exists self, res = Ok self
                       /\ (is_Some (captions self) <-> true = true)).
Proof.
  apply (C6_annotation_sources_opened demo_ext demo_train_dir
           "/data/MSCOCO2017/annotations/instances_train2017.json"
           "/data/MSCOCO2017/annotations/captions_train2017.json"
           true false true demo_world (snd demo_base_run) demo_base).
  - vm_compute. reflexivity.
  - discriminate.
Defined.

Lemma C7_witness :
  (exists e w',
     __init__ demo_ext demo_train_dir
       "/data/MSCOCO2017/annotations/instances_train2017.json"
       "/data/MSCOCO2017/annotations/captions_train2017.json"
       false true false demo_world = (Err e, w')
     /\ opened w' = opened demo_world
     /\ (is_Some (fs demo_world !! demo_train_dir) -> e = mask_without_bbox))
  /\ (forall bboxes masks,
        (masks = true -> bboxes = true) ->
        fst (__init__ demo_ext demo_train_dir
               "/data/MSCOCO2017/annotations/instances_train2017.json"
               "/data/MSCOCO2017/annotations/captions_train2017.json"
               bboxes masks false demo_world)
        <> Err mask_without_bbox).
Proof.
  exact (C7_mask_requires_bbox demo_ext demo_train_dir
           "/data/MSCOCO2017/annotations/instances_train2017.json"
           "/data/MSCOCO2017/annotations/captions_train2017.json"
           false demo_world).
Defined.

(** C5 as stated fails twice.  A negative [sample_num] leaves no file, not
    [min(sample_num, total)] of them; and on a machine where the split
    directory does not exist yet, [load_data] subsamples nothing and then
    extracts the whole archive, so the dataset has the length of the
    archive (3) and not [min(1, 0)]. *)
Lemma C5_counterexample :
  (exists wk',
     fs (snd (data_subsample demo_train_dir (-1) demo_world)) !! demo_train_dir
       = Some wk'
     /\ Z.of_nat (length (all_files wk')) = 0
     /\ Z.min (-1) (Z.of_nat (length (all_files [(demo_train_dir, demo_train_files)])))
        = -1)
  /\ (exists train_ds eval_ds w',
        load_data demo_ext (Some "/data") 1 true false false empty_world
          = (Ok (train_ds, eval_ds), w')
        /\ fs empty_world !! demo_train_dir = None
        /\ DirDataset_len (base train_ds) = 3).
Proof.
  split.
  - eexists. split; [vm_compute; reflexivity|]. split; vm_compute; reflexivity.
  - pose (run := load_data demo_ext (Some "/data") 1 true false false empty_world).
    exists (match fst run with Ok p => fst p | Err _ => null_dataset end),
           (match fst run with Ok p => snd p | Err _ => null_dataset end),
           (snd run).
    split; [vm_compute; reflexivity|]. split; vm_compute; reflexivity.
Qed.

(** C5, as the code has it: after [data_subsample] on an existing
    directory, the files left below it are the first [sample_num] files of
    the traversal (none for a negative [sample_num]), so their number is
    [min(max(0, sample_num), total)], which is [min(sample_num, total)] for
    [sample_num >= 0] and zero for [sample_num = 0].  A dataset constructed
    over the directory as it was left has as many records as files were
    kept in the directory itself; that is the number of files left when no
    file lies in a subdirectory. *)
Theorem C5_subsample_keeps_first (ext : Externals) (source_dir : string)
    (sample_num : Z) (w : world) (wk : walk) :
  fs w !! source_dir = Some wk ->
  exists wk',
    data_subsample source_dir sample_num w
      = (Ok tt, set_fs (<[source_dir := wk']> (fs w)) w)
    /\ all_files wk' = take (Z.to_nat sample_num) (all_files wk)
    /\ Z.of_nat (length (all_files wk'))
       = Z.min (Z.max 0 sample_num) (Z.of_nat (length (all_files wk)))
    /\ (0 <= sample_num ->
          Z.of_nat (length (all_files wk'))
          = Z.min sample_num (Z.of_nat (length (all_files wk))))
    /\ (sample_num = 0 -> all_files wk' = [])
    /\ (forall annotation_file caption_file bboxes masks capts w1 self w2,
          fs w1 !! source_dir = Some wk' ->
          __init__ ext source_dir annotation_file caption_file
            bboxes masks capts w1 = (Ok self, w2) ->
          DirDataset_len (base self)
            = Z.min (Z.max 0 sample_num) (Z.of_nat (length (top_files wk)))
          /\ (all_files wk = top_files wk ->
                DirDataset_len (base self) = Z.of_nat (length (all_files wk')))).
Proof.
  intros Hdir. exists (snd (subsample_walk sample_num wk 0)).
  destruct (subsample_walk_spec sample_num wk 0) as (Hall & Htop & _).
  rewrite Z.sub_0_r in Hall, Htop.
  split; [now apply data_subsample_present|].
  split; [exact Hall|].
  split; [rewrite Hall; apply take_count|].
  split; [intros Hn; rewrite Hall, take_count; lia|].
  split; [intros ->; rewrite Hall; apply take_0|].
  intros annotation_file caption_file bboxes masks capts w1 self w2 Hfs Hinit.
  destruct (init_ok_len _ _ _ _ _ _ _ _ _ _ Hinit) as (wk1 & Hwk1 & Hlen & _).
  rewrite Hfs in Hwk1. injection Hwk1 as <-.
  rewrite Hlen, Htop. split; [apply take_count|].
  intros Hflat. now rewrite Hall, Hflat.
Qed.

Lemma C5_witness :
  exists wk',
    data_subsample demo_train_dir 2 demo_world
      = (Ok tt, set_fs (<[demo_train_dir := wk']> (fs demo_world)) demo_world)
    /\ all_files wk'
       = take (Z.to_nat 2) (all_files [(demo_train_dir, demo_train_files)])
    /\ Z.of_nat (length (all_files wk'))
       = Z.min (Z.max 0 2)
           (Z.of_nat (length (all_files [(demo_train_dir, demo_train_files)])))
    /\ (0 <= 2 ->
          Z.of_nat (length (all_files wk'))
          = Z.min 2 (Z.of_nat (length (all_files [(demo_train_dir, demo_train_files)]))))
    /\ (2 = 0 -> all_files wk' = [])
    /\ (forall annotation_file caption_file bboxes masks capts w1 self w2,
          fs w1 !! demo_train_dir = Some wk' ->
          __init__ demo_ext demo_train_dir annotation_file caption_file
            bboxes masks capts w1 = (Ok self, w2) ->
          DirDataset_len (base self)
            = Z.min (Z.max 0 2)
                (Z.of_nat (length (top_files [(demo_train_dir, demo_train_files)])))
          /\ (all_files [(demo_train_dir, demo_train_files)]
              = top_files [(demo_train_dir, demo_train_files)] ->
                DirDataset_len (base self) = Z.of_nat (length (all_files wk')))).
Proof.
  apply (C5_subsample_keeps_first demo_ext demo_train_dir 2 demo_world
           [(demo_train_dir, demo_train_files)]).
  vm_compute. reflexivity.
Defined.

(** * Further results on the module *)

(** X1: for an integer index fetched by a dataset that holds a caption
    index, [caption] is the list of the caption strings of the annotations
    that the index gives for the sample's image id, queried without a crowd
    flag, in their order; it is present and empty when there is none. *)
Theorem X1_caption_field (ext : Externals) (self : MSCOCODataset)
    (capts : COCO) (i : Z) (w w' : world) (l : loc) :
  captions self = Some capts ->
  _get_single_item ext self (IdxInt i) w = (Ok l, w') ->
  exists d image_id anns,
    heap w' !! l = Some d
    /\ d !! "image_id" = Some (VInt image_id)
    /\ anns = caption_anns capts image_id
    /\ d !! "caption" = Some (VList (map caption_value anns))
    /\ (anns = [] -> d !! "caption" = Some (VList []))
    /\ (forall source, caption_index_of capts source ->
          anns = List.filter (fun a => Z.eqb (ann_image_id a) image_id) source).
Proof.
  intros Hc Hget.
  destruct (get_single_item_inv ext self i w l w' Hget) as (r & Hf & -> & ->).
  destruct (fetch_record ext self _ _ _ Hf) as (d0 & path & image_id & _ & _ & ->).
  exists (sample_record self image_id d0), image_id, (caption_anns capts image_id).
  split; [apply upd_lookup|]. split; [apply sample_image_id|].
  split; [reflexivity|]. split; [now apply sample_caption|]. split.
  - intros E. rewrite (sample_caption self image_id d0 capts Hc), E. reflexivity.
  - intros source [Hnil Hq]. unfold caption_anns.
    destruct (getAnnIds capts image_id None) as [|x ids] eqn:E.
    + cbn [nonempty]. rewrite <- Hq, E. now rewrite Hnil.
    + cbn [nonempty]. rewrite <- E. apply Hq.
Qed.

Lemma X1_witness :
  exists d image_id anns,
    heap (snd (_get_single_item demo_ext demo_full (IdxInt 1) demo_full_world))
      !! 3%nat = Some d
    /\ d !! "image_id" = Some (VInt image_id)
    /\ anns = caption_anns (coco_index demo_captions) image_id
    /\ d !! "caption" = Some (VList (map caption_value anns))
    /\ (anns = [] -> d !! "caption" = Some (VList []))
    /\ (forall source, caption_index_of (coco_index demo_captions) source ->
          anns = List.filter (fun a => Z.eqb (ann_image_id a) image_id) source).
Proof.
  apply (X1_caption_field demo_ext demo_full (coco_index demo_captions) 1
           demo_full_world
           (snd (_get_single_item demo_ext demo_full (IdxInt 1) demo_full_world))
           3%nat);
    vm_compute; reflexivity.
Defined.

(** X2: the sample fetched for an integer index is a copy of the base
    record in which only [image_id], [bbox], [mask] and [caption] can
    differ.  [bbox] and [mask] keep the base value (absent, for a record of
    the directory) unless [include_bboxes] is set, [mask] also unless
    [include_masks] is set, [caption] unless the dataset holds a caption
    index; the base record itself is as before. *)
Theorem X2_fields_written (ext : Externals) (self : MSCOCODataset)
    (i : Z) (w w' : world) (l : loc) :
  _get_single_item ext self (IdxInt i) w = (Ok l, w') ->
  exists l0 d0 d,
    data (base self) !! Z.to_nat i = Some l0
    /\ heap w !! l0 = Some d0
    /\ heap w' !! l0 = Some d0
    /\ l <> l0
    /\ heap w' !! l = Some d
    /\ (forall k, k <> "image_id" -> k <> "bbox" -> k <> "mask" -> k <> "caption" ->
          d !! k = d0 !! k)
    /\ (include_bboxes self = false ->
          d !! "bbox" = d0 !! "bbox" /\ d !! "mask" = d0 !! "mask")
    /\ (include_masks self = false -> d !! "mask" = d0 !! "mask")
    /\ (captions self = None -> d !! "caption" = d0 !! "caption").
Proof.
  intros Hget.
  destruct (get_single_item_inv ext self i w l w' Hget) as (r & Hf & -> & ->).
  destruct (fetch_base ext self _ _ _ Hf)
    as (l0 & d0 & path & image_id & _ & Hl0 & Hd0 & _ & _ & ->).
  exists l0, d0, (sample_record self image_id d0).
  assert (Hne : next_loc w <> l0).
  { intros E. rewrite <- E, next_loc_fresh in Hd0. discriminate. }
  split; [exact Hl0|]. split; [exact Hd0|].
  split; [now rewrite upd_lookup_ne|]. split; [exact Hne|].
  split; [apply upd_lookup|].
  split; [intros k; apply sample_other_key|].
  split; [apply sample_no_bbox|].
  split; [apply sample_no_mask | apply sample_no_caption].
Qed.

Lemma X2_witness :
  exists l0 d0 d,
    data (base mixed_dataset) !! Z.to_nat 0 = Some l0
    /\ heap mixed_dataset_world !! l0 = Some d0
    /\ heap (snd (_get_single_item demo_ext mixed_dataset (IdxInt 0) mixed_dataset_world))
         !! l0 = Some d0
    /\ 2%nat <> l0
    /\ heap (snd (_get_single_item demo_ext mixed_dataset (IdxInt 0) mixed_dataset_world))
         !! 2%nat = Some d
    /\ (forall k, k <> "image_id" -> k <> "bbox" -> k <> "mask" -> k <> "caption" ->
          d !! k = d0 !! k)
    /\ (include_bboxes mixed_dataset = false ->
          d !! "bbox" = d0 !! "bbox" /\ d !! "mask" = d0 !! "mask")
    /\ (include_masks mixed_dataset = false -> d !! "mask" = d0 !! "mask")
    /\ (captions mixed_dataset = None -> d !! "caption" = d0 !! "caption").
Proof.
  apply (X2_fields_written demo_ext mixed_dataset 0 mixed_dataset_world
           (snd (_get_single_item demo_ext mixed_dataset (IdxInt 0) mixed_dataset_world))
           2%nat).
  vm_compute. reflexivity.
Defined.

(** X3: on a dataset whose every position can be fetched, when the [k]
    indices that the loop visits first (the given one, then the drawn ones)
    hold incomplete samples and the next one a complete sample, the access
    returns that sample as soon as more than [k] passes are allowed, and has
    then drawn [k + 1] random indices. *)
Theorem X3_returns_first_complete (ext : Externals) (self : MSCOCODataset)
    (i : Z) (w : world) (k : nat) (r : gmap string value) (fuel : nat) :
  valid_config self ->
  all_fetch ext self (heap w) ->
  0 <= i < DirDataset_len (base self) ->
  (forall j r', (j < k)%nat ->
                fetch ext self (heap w) (nth_index ext self i w j) = Some r' ->
                complete self r' = false) ->
  fetch ext self (heap w) (nth_index ext self i w k) = Some r ->
  complete self r = true ->
  (k < fuel)%nat ->
  exists l w',
    __getitem__ ext fuel self (IdxInt i) w = Some (Ok l, w')
    /\ heap w' !! l = Some r
    /\ rng w' = (rng w + k + 1)%nat.
Proof.
  intros Hvalid Hall Hi Hbefore Hf Hc Hfuel.
  now apply (getitem_first_complete ext self Hvalid k i w r).
Qed.

Lemma X3_witness :
  exists l w',
    __getitem__ demo_ext 2 demo_full (IdxInt 0) demo_full_world = Some (Ok l, w')
    /\ heap w' !! l
       = fetch demo_ext demo_full (heap demo_full_world) 1
    /\ rng w' = (rng demo_full_world + 1 + 1)%nat.
Proof.
  destruct (fetch demo_ext demo_full (heap demo_full_world) 1) as [r|] eqn:Hr;
    [|vm_compute in Hr; discriminate].
  apply (X3_returns_first_complete demo_ext demo_full 0 demo_full_world 1%nat r 2%nat).
  - intros _. vm_compute. reflexivity.
  - intros i Hi.
    assert (E : DirDataset_len (base demo_full) = 3) by (vm_compute; reflexivity).
    rewrite E in Hi.
    assert (Hc : i = 0 \/ i = 1 \/ i = 2) by lia.
    destruct Hc as [-> | [-> | ->]]; vm_compute; eexists; reflexivity.
  - vm_compute. split; discriminate || reflexivity.
  - intros j r' Hj. assert (j = O) by lia. subst j.
    cbn [nth_index]. intros Hf.
    assert (E : option_map (complete demo_full)
                  (fetch demo_ext demo_full (heap demo_full_world) 0) = Some false)
      by (vm_compute; reflexivity).
    rewrite Hf in E. now injection E.
  - exact Hr.
  - assert (E : option_map (complete demo_full)
                  (fetch demo_ext demo_full (heap demo_full_world) 1) = Some true)
      by (vm_compute; reflexivity).
    rewrite Hr in E. now injection E.
  - lia.
Defined.

(** X4: no exception is caught in the loop, so the retry can fail for a
    file other than the one asked for: when the sample at the given index
    is incomplete and the index drawn next names a file whose stem is not an
    integer, the access raises the parse error on its second pass. *)
Theorem X4_retry_raises_on_bad_file (ext : Externals) (self : MSCOCODataset)
    (i : Z) (w : world) (r : gmap string value)
    (l0 : loc) (d0 : gmap string value) (path : string) (fuel : nat) :
  valid_config self ->
  fetch ext self (heap w) i = Some r ->
  complete self r = false ->
  data (base self) !! Z.to_nat (drawn ext self w) = Some l0 ->
  heap w !! l0 = Some d0 ->
  d0 !! "image" = Some (VStr path) ->
  stem_id ext path = None ->
  exists w',
    __getitem__ ext (S (S fuel)) self (IdxInt i) w
    = Some (Err (ValueError "invalid literal for int() with base 10"), w')
    /\ rng w' = S (rng w).
Proof.
  intros Hvalid Hf Hc Hl Hd Himg Hstem.
  rewrite (getitem_step ext self Hvalid (S fuel) i w r Hf), Hc.
  pose proof (fetch_in_range ext self _ _ _ Hf) as Hr.
  assert (Hlen : 0 < DirDataset_len (base self)) by lia.
  pose proof (drawn_in_range ext self w Hlen) as Hdr.
  pose proof (heap_le_after_pass w r l0 d0 Hd) as Hd'.
  eexists. cbn [__getitem__]. unfold loop_body.
  rewrite (bind_err _ _ _ _ _
             (get_single_item_bad_stem ext self _ _ _ _ _
                (proj1 Hdr) Hl Hd' Himg Hstem)).
  split; reflexivity.
Qed.

Lemma X4_witness :
  exists w',
    __getitem__ demo_ext 2 mixed_dataset (IdxInt 0) mixed_dataset_world
    = Some (Err (ValueError "invalid literal for int() with base 10"), w')
    /\ rng w' = S (rng mixed_dataset_world).
Proof.
  destruct (fetch demo_ext mixed_dataset (heap mixed_dataset_world) 0) as [r|] eqn:Hr;
    [|vm_compute in Hr; discriminate].
  apply (X4_retry_raises_on_bad_file demo_ext mixed_dataset 0 mixed_dataset_world
           r 1%nat {[ "image" := VStr "/data/mixed/notes.txt" ]}
           "/data/mixed/notes.txt" O).
  - intros _. vm_compute. reflexivity.
  - exact Hr.
  - assert (E : option_map (complete mixed_dataset)
                  (fetch demo_ext mixed_dataset (heap mixed_dataset_world) 0)
                = Some false) by (vm_compute; reflexivity).
    rewrite Hr in E. now injection E.
  - vm_compute. reflexivity.
  - vm_compute. reflexivity.
  - vm_compute. reflexivity.
  - vm_compute. reflexivity.
Defined.

(** X5: with no annotation kind requested, a known string key of a
    dataset that has at least one position gets the base dataset's record
    back on the first pass, after one draw from the generator. *)
Theorem X5_string_key_without_flags (ext : Externals) (self : MSCOCODataset)
    (k : string) (w : world) (l : loc) (fuel : nat) :
  include_bboxes self = false ->
  include_masks self = false ->
  captions self = None ->
  named (base self) !! k = Some l ->
  0 < DirDataset_len (base self) ->
  __getitem__ ext (S fuel) self (IdxStr k) w
  = Some (Ok l, {| heap := heap w; rng := S (rng w);
                   opened := opened w; fs := fs w |}).
Proof.
  intros Hb Hm Hc Hk Hlen.
  assert (Hbody : loop_body ext self (IdxStr k) w
                  = bind (randint ext (DirDataset_len (base self)))
                      (fun next => ret (l, true, IdxInt next)) w).
  { unfold loop_body. unfold bind at 1. rewrite get_single_item_str, Hk.
    rewrite Hb, Hm, Hc. reflexivity. }
  cbn [__getitem__]. rewrite Hbody.
  now rewrite (bind_ok _ _ _ _ _ (randint_ok ext _ w Hlen)).
Qed.

Lemma X5_witness :
  __getitem__ demo_ext 1 plain_dataset (IdxStr "000000000632") keyed_world
  = Some (Ok 0%nat, {| heap := heap keyed_world; rng := S (rng keyed_world);
                       opened := opened keyed_world; fs := fs keyed_world |}).
Proof.
  apply (X5_string_key_without_flags demo_ext plain_dataset
           "000000000632" keyed_world 0%nat O);
    vm_compute; reflexivity.
Defined.

(** X6: every access that returns has drawn at least one random index,
    also when its first sample was complete, and at most one per pass; it
    changes neither the directories nor the list of opened files. *)
Theorem X6_access_draws (ext : Externals) (self : MSCOCODataset)
    (fuel : nat) (idx : index) (w w' : world) (l : loc) :
  __getitem__ ext fuel self idx w = Some (Ok l, w') ->
  (rng w < rng w' <= rng w + fuel)%nat
  /\ opened w' = opened w /\ fs w' = fs w.
Proof. apply getitem_ok_world. Qed.

Lemma X6_witness :
  (rng demo_full_world < rng (world_of demo_access) <= rng demo_full_world + 5)%nat
  /\ opened (world_of demo_access) = opened demo_full_world
  /\ fs (world_of demo_access) = fs demo_full_world.
Proof.
  apply (X6_access_draws demo_ext demo_full 5 (IdxInt 0) demo_full_world
           (world_of demo_access) 4%nat).
  vm_compute. reflexivity.
Defined.

(** X7: subsampling a directory to [n] files and then to [m] files leaves
    the machine as one subsampling to [min(n, m)] files does; in particular
    a second run with the same [sample_num] changes nothing. *)
Theorem X7_subsample_twice (source_dir : string) (n m : Z) (w : world) :
  data_subsample source_dir m (snd (data_subsample source_dir n w))
    = data_subsample source_dir (Z.min n m) w
  /\ data_subsample source_dir n (snd (data_subsample source_dir n w))
     = data_subsample source_dir n w.
Proof.
  assert (H : forall a b,
    data_subsample source_dir b (snd (data_subsample source_dir a w))
    = data_subsample source_dir (Z.min a b) w).
  { intros a b. rewrite (data_subsample_run source_dir a w). cbn [snd].
    rewrite !data_subsample_run.
    destruct (fs w !! source_dir) as [wk|] eqn:E.
    - cbn [fs set_fs]. rewrite lookup_insert_eq, prune_prune.
      unfold set_fs. cbn. rewrite insert_insert_eq.
      replace (Nat.min (Z.to_nat a) (Z.to_nat b)) with (Z.to_nat (Z.min a b)) by lia.
      reflexivity.
    - cbv beta iota. rewrite E. reflexivity. }
  split; [apply H|]. rewrite H. now rewrite Z.min_id.
Qed.



(** X9: when the three directories exist, [load_data] consults no archive:
    its outcome is the same whatever the archive source would give.  Each
    dataset it returns has [min(max(0, sample_num), files in its directory)]
    records, and its directory is left cut down to its first [sample_num]
    files. *)
Theorem X9_bootstrap_over_existing_dirs (ext : Externals)
    (root_dir : option string) (n : Z) (bb mk cp : bool) (w : world)
    (wkt wke wka : walk) :
  fs w !! path_join (load_root ext root_dir) "train2017" = Some wkt ->
  fs w !! path_join (load_root ext root_dir) "val2017" = Some wke ->
  fs w !! path_join (load_root ext root_dir) "annotations" = Some wka ->
  (forall u, load_data (with_unpack ext u) root_dir n bb mk cp w
             = load_data ext root_dir n bb mk cp w)
  /\ (forall train_ds eval_ds w',
        load_data ext root_dir n bb mk cp w = (Ok (train_ds, eval_ds), w') ->
        DirDataset_len (base train_ds)
          = Z.min (Z.max 0 n) (Z.of_nat (length (top_files wkt)))
        /\ DirDataset_len (base eval_ds)
           = Z.min (Z.max 0 n) (Z.of_nat (length (top_files wke)))
        /\ fs w' !! path_join (load_root ext root_dir) "train2017"
           = Some (prune (Z.to_nat n) wkt)
        /\ fs w' !! path_join (load_root ext root_dir) "val2017"
           = Some (prune (Z.to_nat n) wke)).
Proof.
  intros Ht He Ha. split.
  - intros u. rewrite !load_data_stages. cbv zeta.
    change (load_root (with_unpack ext u) root_dir) with (load_root ext root_dir).
    destruct (subsampled_dirs (load_root ext root_dir) n w) as (Ht2 & He2 & _).
    cbv zeta in Ht2, He2. rewrite Ht in Ht2. rewrite He in He2.
    cbn [fmap option_fmap option_map] in Ht2, He2.
    destruct (split_dirs_differ (load_root ext root_dir)) as (_ & Hta & Hea).
    set (root := load_root ext root_dir) in *.
    set (w2 := snd (data_subsample (path_join root "val2017") n
                      (snd (data_subsample (path_join root "train2017") n w)))) in *.
    assert (Ha2 : fs w2 !! path_join root "annotations" = Some wka).
    { subst w2. rewrite data_subsample_lookup. case_decide; [congruence|].
      rewrite data_subsample_lookup. case_decide; [congruence|]. exact Ha. }
    rewrite !(fetch_missing_present _ _ _ w2 _ Ht2).
    rewrite !(fetch_missing_present _ _ _ w2 _ He2).
    rewrite !(fetch_missing_present _ _ _ w2 _ Ha2).
    reflexivity.
  - intros train_ds eval_ds w' H.
    exact (load_data_with_dirs ext root_dir n bb mk cp w wkt wke _ _ _ Ht He H).
Qed.

Lemma X9_witness :
  load_data offline_ext (Some "/data") 2 true false false demo_world
    = demo_first_run
  /\ DirDataset_len (base (fst (ok_pair demo_first_run))) = 2
  /\ DirDataset_len (base (snd (ok_pair demo_first_run))) = 2.
Proof.
  destruct (X9_bootstrap_over_existing_dirs demo_ext (Some "/data") 2
              true false false demo_world
              [(demo_train_dir, demo_train_files)]
              [(demo_eval_dir, ["000000000285.jpg"; "000000000632.jpg"])]
              [(demo_annotation_dir, [])]) as [Hsame Hlen];
    [vm_compute; reflexivity ..|].
  split; [exact (Hsame (fun _ => None))|].
  destruct (Hlen (fst (ok_pair demo_first_run)) (snd (ok_pair demo_first_run))
              (snd demo_first_run)) as (H1 & H2 & _);
    [vm_compute; reflexivity|].
  split; [exact H1 | exact H2].
Defined.

(** X10: when the train directory does not exist, [load_data] extracts the
    archive after the subsampling step, so the train dataset has one record
    per file that the archive puts into the directory, whatever
    [sample_num] is, and the directory is left with all of them. *)
Theorem X10_first_run_not_subsampled (ext : Externals)
    (root_dir : option string) (n : Z) (bb mk cp : bool) (w w' : world)
    (wk : walk) (train_ds eval_ds : MSCOCODataset) :
  fs w !! path_join (load_root ext root_dir) "train2017" = None ->
  unpack ext "train2017.zip" = Some wk ->
  load_data ext root_dir n bb mk cp w = (Ok (train_ds, eval_ds), w') ->
  DirDataset_len (base train_ds) = Z.of_nat (length (top_files wk))
  /\ fs w' !! path_join (load_root ext root_dir) "train2017" = Some wk.
Proof.
  intros Ht Hu H. rewrite load_data_stages in H. cbv zeta in H.
  destruct (subsampled_dirs (load_root ext root_dir) n w) as (Ht2 & _).
  cbv zeta in Ht2. rewrite Ht in Ht2. cbn [fmap option_fmap option_map] in Ht2.
  set (root := load_root ext root_dir) in *.
  set (train := path_join root "train2017") in *.
  set (w2 := snd (data_subsample (path_join root "val2017") n
                    (snd (data_subsample train n w)))) in *.
  rewrite (fetch_missing_absent ext train _ w2 Ht2), Hu in H.
  set (w3 := set_fs (<[train := wk]> (fs w2)) w2) in H.
  assert (Ht3 : fs w3 !! train = Some wk) by apply lookup_insert_eq.
  destruct (fetch_missing ext (path_join root "val2017") _ w3)
    as [[[]|e] w4] eqn:Hv; [|discriminate].
  pose proof (fetch_missing_keeps ext _ _ _ _ _ _ Hv Ht3) as Ht4.
  destruct (fetch_missing ext (path_join root "annotations") _ w4)
    as [[[]|e] w5] eqn:Ha; [|discriminate].
  pose proof (fetch_missing_keeps ext _ _ _ _ _ _ Ha Ht4) as Ht5.
  destruct (__init__ ext train _ _ bb mk cp w5) as [[tr|e] w6] eqn:Hit; [|discriminate].
  destruct (__init__ ext (path_join root "val2017") _ _ bb mk cp w6)
    as [[ev|e] w7] eqn:Hie; [|discriminate].
  injection H as <- <- <-.
  destruct (init_ok_len _ _ _ _ _ _ _ _ _ _ Hit) as (k1 & Hk1 & Hl1 & Hfs1).
  destruct (init_ok_len _ _ _ _ _ _ _ _ _ _ Hie) as (k2 & _ & _ & Hfs2).
  rewrite Ht5 in Hk1. injection Hk1 as <-.
  split; [exact Hl1|]. now rewrite Hfs2, Hfs1.
Qed.

Lemma X10_witness :
  DirDataset_len (base (fst (ok_pair demo_fresh_run)))
    = Z.of_nat (length (top_files [(demo_train_dir, demo_train_files)]))
  /\ fs (snd demo_fresh_run) !! path_join (load_root demo_ext (Some "/data")) "train2017"
     = Some [(demo_train_dir, demo_train_files)].
Proof.
  apply (X10_first_run_not_subsampled demo_ext (Some "/data") 1 true false false
           empty_world (snd demo_fresh_run) [(demo_train_dir, demo_train_files)]
           (fst (ok_pair demo_fresh_run)) (snd (ok_pair demo_fresh_run)));
    vm_compute; reflexivity.
Defined.

(** X11: when the train directory does not exist and its archive cannot be
    fetched, [load_data] fails with that error before anything is
    constructed: no annotation file is opened and no object is created.
    The subsampling has run by then, so an existing eval directory has been
    cut down all the same. *)
Theorem X11_failed_download_aborts (ext : Externals)
    (root_dir : option string) (n : Z) (bb mk cp : bool) (w : world) :
  fs w !! path_join (load_root ext root_dir) "train2017" = None ->
  unpack ext "train2017.zip" = None ->
  exists w',
    load_data ext root_dir n bb mk cp w = (Err (LoadError "train2017.zip"), w')
    /\ heap w' = heap w /\ opened w' = opened w
    /\ fs w' !! path_join (load_root ext root_dir) "train2017" = None
    /\ fs w' !! path_join (load_root ext root_dir) "val2017"
       = prune (Z.to_nat n) <$> (fs w !! path_join (load_root ext root_dir) "val2017").
Proof.
  intros Ht Hu. rewrite load_data_stages. cbv zeta.
  destruct (subsampled_dirs (load_root ext root_dir) n w)
    as (Ht2 & He2 & Hh & Ho & _).
  cbv zeta in Ht2, He2, Hh, Ho. rewrite Ht in Ht2.
  cbn [fmap option_fmap option_map] in Ht2.
  set (root := load_root ext root_dir) in *.
  set (w2 := snd (data_subsample (path_join root "val2017") n
                    (snd (data_subsample (path_join root "train2017") n w)))) in *.
  rewrite (fetch_missing_absent ext _ _ w2 Ht2), Hu.
  exists w2. now repeat split.
Qed.

Lemma X11_witness :
  exists w',
    load_data offline_ext (Some "/data") 1 true false false empty_world
      = (Err (LoadError "train2017.zip"), w')
    /\ heap w' = heap empty_world /\ opened w' = opened empty_world
    /\ fs w' !! path_join (load_root offline_ext (Some "/data")) "train2017" = None
    /\ fs w' !! path_join (load_root offline_ext (Some "/data")) "val2017"
       = prune (Z.to_nat 1)
           <$> (fs empty_world !! path_join (load_root offline_ext (Some "/data")) "val2017").
Proof.
  apply (X11_failed_download_aborts offline_ext (Some "/data") 1 true false false
           empty_world); vm_compute; reflexivity.
Defined.

(** X12: running [load_data] again over split directories that exist gives
    datasets of the same lengths as the run before, and leaves the two
    directories as that run left them. *)
Theorem X12_second_run_same_lengths (ext : Externals)
    (root_dir : option string) (n : Z) (bb mk cp : bool) (w w1 w2 : world)
    (wkt wke : walk) (train_ds eval_ds train_ds2 eval_ds2 : MSCOCODataset) :
  fs w !! path_join (load_root ext root_dir) "train2017" = Some wkt ->
  fs w !! path_join (load_root ext root_dir) "val2017" = Some wke ->
  load_data ext root_dir n bb mk cp w = (Ok (train_ds, eval_ds), w1) ->
  load_data ext root_dir n bb mk cp w1 = (Ok (train_ds2, eval_ds2), w2) ->
  DirDataset_len (base train_ds2) = DirDataset_len (base train_ds)
  /\ DirDataset_len (base eval_ds2) = DirDataset_len (base eval_ds)
  /\ fs w2 !! path_join (load_root ext root_dir) "train2017"
     = fs w1 !! path_join (load_root ext root_dir) "train2017"
  /\ fs w2 !! path_join (load_root ext root_dir) "val2017"
     = fs w1 !! path_join (load_root ext root_dir) "val2017".
Proof.
  intros Ht He H1 H2.
  destruct (load_data_with_dirs ext _ _ _ _ _ _ _ _ _ _ _ Ht He H1)
    as (L1 & L2 & Ft & Fe).
  destruct (load_data_with_dirs ext _ _ _ _ _ _ _ _ _ _ _ Ft Fe H2)
    as (M1 & M2 & Gt & Ge).
  rewrite M1, M2, L1, L2, Gt, Ge, Ft, Fe, !top_files_prune, !length_take, !prune_prune.
  rewrite !Nat.min_id. repeat split; lia.
Qed.

Lemma X12_witness :
  DirDataset_len (base (fst (ok_pair demo_second_run)))
    = DirDataset_len (base (fst (ok_pair demo_first_run)))
  /\ DirDataset_len (base (snd (ok_pair demo_second_run)))
     = DirDataset_len (base (snd (ok_pair demo_first_run)))
  /\ fs (snd demo_second_run) !! path_join (load_root demo_ext (Some "/data")) "train2017"
     = fs (snd demo_first_run) !! path_join (load_root demo_ext (Some "/data")) "train2017"
  /\ fs (snd demo_second_run) !! path_join (load_root demo_ext (Some "/data")) "val2017"
     = fs (snd demo_first_run) !! path_join (load_root demo_ext (Some "/data")) "val2017".
Proof.
  apply (X12_second_run_same_lengths demo_ext (Some "/data") 2 true false false
           demo_world (snd demo_first_run) (snd demo_second_run)
           [(demo_train_dir, demo_train_files)]
           [(demo_eval_dir, ["000000000285.jpg"; "000000000632.jpg"])]
           (fst (ok_pair demo_first_run)) (snd (ok_pair demo_first_run))
           (fst (ok_pair demo_second_run)) (snd (ok_pair demo_second_run)));
    vm_compute; reflexivity.
Defined.

(** X13: the populating methods start from empty lists, so they replace
    what the record held: on a stored record each of them succeeds, changes
    that record only, and a second call leaves the world as the first call
    left it (nothing is appended twice). *)
Theorem X13_populate_replaces (self : MSCOCODataset) (capts : COCO)
    (l : loc) (image_id : Z) (w : world) (d : gmap string value) :
  heap w !! l = Some d ->
  exists w1 w2,
    _populate_instance_data self l image_id w = (Ok tt, w1)
    /\ _populate_instance_data self l image_id w1 = (Ok tt, w1)
    /\ (forall l', l' <> l -> heap w1 !! l' = heap w !! l')
    /\ _populate_caption_data capts l image_id w = (Ok tt, w2)
    /\ _populate_caption_data capts l image_id w2 = (Ok tt, w2)
    /\ (forall l', l' <> l -> heap w2 !! l' = heap w !! l').
Proof.
  intros Hl.
  exists (upd l (with_instances self image_id d) w),
         (upd l (with_captions capts image_id d) w).
  split; [now apply populate_instance_ok|]. split; [|split; [|split; [|split]]].
  - rewrite (populate_instance_ok self l image_id _ _ (upd_lookup _ _ _)).
    rewrite upd_upd. do 2 f_equal.
    unfold with_instances, with_masks.
    destruct (include_masks self); apply map_eq; intros k;
      rewrite !lookup_insert; repeat case_decide; congruence.
  - intros l' Hne. apply upd_lookup_ne. congruence.
  - now apply populate_caption_ok.
  - rewrite (populate_caption_ok capts l image_id _ _ (upd_lookup _ _ _)).
    rewrite upd_upd. do 2 f_equal.
    unfold with_captions. now rewrite insert_insert_eq.
  - intros l' Hne. apply upd_lookup_ne. congruence.
Qed.

Lemma X13_witness :
  exists w1 w2,
    _populate_instance_data demo_full 1%nat 285 demo_full_world = (Ok tt, w1)
    /\ _populate_instance_data demo_full 1%nat 285 w1 = (Ok tt, w1)
    /\ (forall l', l' <> 1%nat -> heap w1 !! l' = heap demo_full_world !! l')
    /\ _populate_caption_data (coco_index demo_captions) 1%nat 285 demo_full_world
       = (Ok tt, w2)
    /\ _populate_caption_data (coco_index demo_captions) 1%nat 285 w2 = (Ok tt, w2)
    /\ (forall l', l' <> 1%nat -> heap w2 !! l' = heap demo_full_world !! l').
Proof.
  apply (X13_populate_replaces demo_full (coco_index demo_captions) 1%nat 285
           demo_full_world
           {[ "image" := VStr "/data/MSCOCO2017/train2017/000000000285.jpg" ]}).
  vm_compute. reflexivity.
Defined.
